(** * Accident analysis dashboard: filtering and aggregation engine

    A shallow embedding of the data-processing core of the dashboard:
    - [src/data_loader.py]          : [load_data], [filter_data]
    - [src/components/filters.py]   : [initialize_filters],
      [get_active_filters], [display_active_filters]
    - [src/utils/data_processing.py]: [calculate_summary_stats],
      [prepare_temporal_data], [calculate_rates]
    - [src/pages/temporal.py], [src/pages/financial.py] : the period-over-period
      variations shown as metric deltas.
    - [overview.py] : the metrics of [main]; [src/pages/home.py] : the year
      indicators of [render_metrics].

    Modelling conventions.
    - A numeric pandas cell (float64, or int64 promoted on division) is a
      [cell]: a finite number, one of the two infinities, or NaN.  Finite
      numbers are exact rationals ([Qc]); rounding, overflow and the sign of
      zero are outside the model.
    - A DataFrame is the list of its rows in index order; a Series is a list
      of cells; a boolean mask is a list of booleans.
    - A Python dict with string keys is a [gmap string _].
    - The frame read by [pd.read_csv] carries its header, so that a column
      the loader subscripts may be absent ([KeyError]); a cell of the Date
      column is a date or [NaT].  What [astype(str)] makes of a missing
      value differs between pandas versions and is a parameter of the
      loader ([astype_str_missing]).
    - Python object identity (needed to state that [filter_data] does not
      touch its argument) is modelled in [Module Store] by a heap of
      DataFrame objects. *)

From Stdlib Require Import QArith Qcanon Ascii String.
From stdpp Require Import base decidable option numbers list strings pretty gmap fin_maps sets sorting.

Local Open Scope Qc_scope.

(** ** Numeric cells *)

Inductive cell : Type :=
  | Fin (q : Qc)
  | PInf
  | NInf
  | NaN.

#[global] Instance cell_eq_dec : EqDecision cell.
Proof. solve_decision. Defined.

Definition Qc_of_nat (n : nat) : Qc := Qc_of_Z (Z.of_nat n).

(** [pd.isna] / [pd.notna] on one cell. *)
Definition isna (c : cell) : bool :=
  match c with NaN => true | _ => false end.

Definition notna (c : cell) : bool := negb (isna c).

(** A finite number, as opposed to the markers [inf], [-inf] and [nan]. *)
Definition is_finite (c : cell) : bool :=
  match c with Fin _ => true | _ => false end.

(** The result of an undefined division: [inf], [-inf] or [nan]. *)
Definition is_undefined (c : cell) : bool := negb (is_finite c).

(** Comparisons follow IEEE 754: every comparison with NaN is false. *)
Definition cell_le (x y : cell) : bool :=
  match x, y with
  | NaN, _ | _, NaN => false
  | NInf, _ => true
  | _, PInf => true
  | Fin a, Fin b => bool_decide (a ≤ b)
  | _, _ => false
  end.

Definition cell_lt (x y : cell) : bool :=
  match x, y with
  | NaN, _ | _, NaN => false
  | Fin a, Fin b => bool_decide (a < b)
  | NInf, NInf => false
  | NInf, _ => true
  | PInf, _ => false
  | Fin _, PInf => true
  | Fin _, NInf => false
  end.

Definition cell_ge (x y : cell) : bool := cell_le y x.
Definition cell_gt (x y : cell) : bool := cell_lt y x.

Definition cell_neg (x : cell) : cell :=
  match x with
  | Fin a => Fin (- a)
  | PInf => NInf
  | NInf => PInf
  | NaN => NaN
  end.

Definition cell_add (x y : cell) : cell :=
  match x, y with
  | NaN, _ | _, NaN => NaN
  | Fin a, Fin b => Fin (a + b)
  | PInf, NInf | NInf, PInf => NaN
  | PInf, _ | _, PInf => PInf
  | NInf, _ | _, NInf => NInf
  end.

Definition cell_sub (x y : cell) : cell := cell_add x (cell_neg y).

(** An infinity with the sign of [s] ([inf * 0] is NaN). *)
Definition signed_inf (s : comparison) : cell :=
  match s with Gt => PInf | Lt => NInf | Eq => NaN end.

Definition cell_mul (x y : cell) : cell :=
  match x, y with
  | NaN, _ | _, NaN => NaN
  | Fin a, Fin b => Fin (a * b)
  | PInf, Fin b | Fin b, PInf => signed_inf (b ?= 0)
  | NInf, Fin b | Fin b, NInf => signed_inf (0 ?= b)
  | PInf, PInf | NInf, NInf => PInf
  | PInf, NInf | NInf, PInf => NInf
  end.

(** True division as numpy and pandas perform it on numeric columns and
    numpy scalars: a zero divisor never raises; [x / 0] is [inf], [-inf] or
    [nan] according to the sign of [x]. *)
Definition cell_div (x y : cell) : cell :=
  match x, y with
  | NaN, _ | _, NaN => NaN
  | Fin a, Fin b =>
      if bool_decide (b = 0) then signed_inf (a ?= 0) else Fin (a / b)
  | Fin _, _ => Fin 0
  | PInf, Fin b => if bool_decide (b < 0) then NInf else PInf
  | NInf, Fin b => if bool_decide (b < 0) then PInf else NInf
  | _, _ => NaN
  end.

(** ** Series and masks *)

Definition series_add (a b : list cell) : list cell := zip_with cell_add a b.
Definition series_div (a b : list cell) : list cell := zip_with cell_div a b.
Definition series_mul_scalar (a : list cell) (k : cell) : list cell :=
  (λ x, cell_mul x k) <$> a.
Definition series_div_scalar (a : list cell) (k : cell) : list cell :=
  (λ x, cell_div x k) <$> a.
Definition series_ge (a : list cell) (k : cell) : list bool :=
  (λ x, cell_ge x k) <$> a.
Definition series_le (a : list cell) (k : cell) : list bool :=
  (λ x, cell_le x k) <$> a.
Definition series_gt (a : list cell) (k : cell) : list bool :=
  (λ x, cell_gt x k) <$> a.
Definition mask_and (a b : list bool) : list bool := zip_with andb a b.

(** [Series.isin(values)] on a column of strings. *)
Definition isin (a : list string) (values : list string) : list bool :=
  (λ s, bool_decide (s ∈ values)) <$> a.

(** [Series.sum()] with the default [skipna=True]: NaN cells are left out,
    the empty sum is 0. *)
Definition series_sum (a : list cell) : cell :=
  foldr cell_add (Fin 0) (filter (λ c, notna c = true) a).

(** [Series.count()]: the number of non-NaN cells. *)
Definition series_count (a : list cell) : nat :=
  length (filter (λ c, notna c = true) a).

(** [Series.mean()] with [skipna=True]: the sum of the non-NaN cells over
    their number; with no such cell the quotient is 0/0, i.e. NaN. *)
Definition series_mean (a : list cell) : cell :=
  cell_div (series_sum a) (Fin (Qc_of_nat (series_count a))).

(** Boolean indexing [df[mask]]: a new frame with the rows whose mask entry
    is true, in the order of [df]. *)
Fixpoint getitem_mask {A : Type} (df : list A) (mask : list bool) : list A :=
  match df, mask with
  | r :: df', b :: mask' =>
      if b then r :: getitem_mask df' mask' else getitem_mask df' mask'
  | _, _ => []
  end.

(** ** Rows and frames *)

(** A [Timestamp] on the first day of a month, as [load_data] builds them. *)
Record date : Type := { year : Z; month : Z }.

#[global] Instance date_eq_dec : EqDecision date.
Proof. solve_decision. Defined.

(** Months elapsed since year 0; orders dates chronologically. *)
Definition month_index (d : date) : Z := (12 * year d + (month d - 1))%Z.

Definition date_le (d1 d2 : date) : bool :=
  bool_decide (month_index d1 ≤ month_index d2)%Z.

(** One record of the loaded table, with the columns read by the engine. *)
Record row : Type := {
  Accident_Severity : string;
  Number_of_Vehicles_Involved : cell;
  Pedestrians_Involved : cell;
  Cyclists_Involved : cell;
  Number_of_Injuries : cell;
  Number_of_Fatalities : cell;
  Emergency_Response_Time : cell;
  Accident_Cause : string;
  Medical_Cost : cell;
  Economic_Loss : cell;
  Insurance_Claims : cell;
  Year : Z;
  Month : string;
  Date : date
}.

#[global] Instance row_eq_dec : EqDecision row.
Proof. solve_decision. Defined.

Abbreviation DataFrame := (list row).

(** ** Filter specification ([components/filters.py]) *)

(** The [filters] dict.  A key that is absent ([filters.get] returns [None])
    is [None] here; the widgets fix the type of each value. *)
Record Filters : Type := {
  severity : option (list string);
  vehicles_range : option (Qc * Qc);
  pedestrians : option bool;
  cyclists : option bool;
  casualties_range : option (Qc * Qc);
  response_time_range : option (Qc * Qc);
  causes : option (list string)
}.

(** [initialize_filters]: the dict stored in the session state at start-up
    and by the reset button. *)
Definition initialize_filters : Filters := {|
  severity := Some [];
  vehicles_range := Some (Qc_of_Z 1, Qc_of_Z 4);
  pedestrians := Some false;
  cyclists := Some false;
  casualties_range := Some (Qc_of_Z 0, Qc_of_Z 23);
  response_time_range := Some (Qc_of_Z 5, Qc_of_Z 60);
  causes := Some []
|}.

(** Python truthiness of [filters.get(key)] for a list value: [None] and the
    empty list are falsy. *)
Definition truthy_list (v : option (list string)) : option (list string) :=
  match v with
  | Some (x :: l) => Some (x :: l)
  | _ => None
  end.

(** Truthiness of [filters.get(key, False)] for a boolean value. *)
Definition truthy_bool (v : option bool) : bool := default false v.

(** ** The filter engine ([data_loader.filter_data]) *)

(** The boolean masks computed from the frame being filtered. *)
Definition mask_severity (values : list string) (filtered_df : DataFrame) : list bool :=
  isin (Accident_Severity <$> filtered_df) values.

Definition mask_vehicles (min_v max_v : Qc) (filtered_df : DataFrame) : list bool :=
  mask_and (series_ge (Number_of_Vehicles_Involved <$> filtered_df) (Fin min_v))
           (series_le (Number_of_Vehicles_Involved <$> filtered_df) (Fin max_v)).

Definition mask_pedestrians (filtered_df : DataFrame) : list bool :=
  series_gt (Pedestrians_Involved <$> filtered_df) (Fin 0).

Definition mask_cyclists (filtered_df : DataFrame) : list bool :=
  series_gt (Cyclists_Involved <$> filtered_df) (Fin 0).

Definition mask_casualties (min_c max_c : Qc) (filtered_df : DataFrame) : list bool :=
  let total_casualties :=
    series_add (Number_of_Injuries <$> filtered_df)
               (Number_of_Fatalities <$> filtered_df) in
  mask_and (series_ge total_casualties (Fin min_c))
           (series_le total_casualties (Fin max_c)).

Definition mask_response_time (min_t max_t : Qc) (filtered_df : DataFrame) : list bool :=
  mask_and (series_ge (Emergency_Response_Time <$> filtered_df) (Fin min_t))
           (series_le (Emergency_Response_Time <$> filtered_df) (Fin max_t)).

Definition mask_causes (values : list string) (filtered_df : DataFrame) : list bool :=
  isin (Accident_Cause <$> filtered_df) values.

(** [# Filtre par sévérité] *)
Definition filter_severity (filters : Filters) (filtered_df : DataFrame) : DataFrame :=
  match truthy_list (severity filters) with
  | Some values => getitem_mask filtered_df (mask_severity values filtered_df)
  | None => filtered_df
  end.

(** [# Filtre par nombre de véhicules]: a 2-tuple is always truthy, so the
    range is applied whenever the key is present. *)
Definition filter_vehicles (filters : Filters) (filtered_df : DataFrame) : DataFrame :=
  match vehicles_range filters with
  | Some (min_v, max_v) =>
      getitem_mask filtered_df (mask_vehicles min_v max_v filtered_df)
  | None => filtered_df
  end.

(** [# Filtre présence piétons/cyclistes] *)
Definition filter_pedestrians (filters : Filters) (filtered_df : DataFrame) : DataFrame :=
  if truthy_bool (pedestrians filters)
  then getitem_mask filtered_df (mask_pedestrians filtered_df)
  else filtered_df.

Definition filter_cyclists (filters : Filters) (filtered_df : DataFrame) : DataFrame :=
  if truthy_bool (cyclists filters)
  then getitem_mask filtered_df (mask_cyclists filtered_df)
  else filtered_df.

(** [# Filtre blessés/décès] *)
Definition filter_casualties (filters : Filters) (filtered_df : DataFrame) : DataFrame :=
  match casualties_range filters with
  | Some (min_c, max_c) =>
      getitem_mask filtered_df (mask_casualties min_c max_c filtered_df)
  | None => filtered_df
  end.

(** [# Filtre temps de réponse] *)
Definition filter_response_time (filters : Filters) (filtered_df : DataFrame) : DataFrame :=
  match response_time_range filters with
  | Some (min_t, max_t) =>
      getitem_mask filtered_df (mask_response_time min_t max_t filtered_df)
  | None => filtered_df
  end.

(** [# Filtre causes d'accident] *)
Definition filter_causes (filters : Filters) (filtered_df : DataFrame) : DataFrame :=
  match truthy_list (causes filters) with
  | Some values => getitem_mask filtered_df (mask_causes values filtered_df)
  | None => filtered_df
  end.

(** [filter_data(df, filters)] on values: [None] stands for Python's [None],
    the loader's failure result. *)
Definition filter_data (df : option DataFrame) (filters : Filters) : option DataFrame :=
  match df with
  | None => None
  | Some df =>
      let filtered_df := df in
      let filtered_df := filter_severity filters filtered_df in
      let filtered_df := filter_vehicles filters filtered_df in
      let filtered_df := filter_pedestrians filters filtered_df in
      let filtered_df := filter_cyclists filters filtered_df in
      let filtered_df := filter_casualties filters filtered_df in
      let filtered_df := filter_response_time filters filtered_df in
      let filtered_df := filter_causes filters filtered_df in
      Some filtered_df
  end.

(** The row-wise reading of the seven predicates, used to state what
    [filter_data] keeps. *)
Definition in_range (v : cell) (r : option (Qc * Qc)) : bool :=
  match r with
  | Some (lo, hi) => cell_ge v (Fin lo) && cell_le v (Fin hi)
  | None => true
  end.

Definition in_values (s : string) (v : option (list string)) : bool :=
  match truthy_list v with
  | Some values => bool_decide (s ∈ values)
  | None => true
  end.

Definition involved (c : cell) (v : option bool) : bool :=
  if truthy_bool v then cell_gt c (Fin 0) else true.

Definition row_matches (filters : Filters) (r : row) : bool :=
  in_values (Accident_Severity r) (severity filters)
  && in_range (Number_of_Vehicles_Involved r) (vehicles_range filters)
  && involved (Pedestrians_Involved r) (pedestrians filters)
  && involved (Cyclists_Involved r) (cyclists filters)
  && in_range (cell_add (Number_of_Injuries r) (Number_of_Fatalities r))
              (casualties_range filters)
  && in_range (Emergency_Response_Time r) (response_time_range filters)
  && in_values (Accident_Cause r) (causes filters).

(** ** Object identity: the filter engine on a heap of frames *)

Module Store.

(** A heap maps object references to DataFrame objects. *)
Abbreviation heap := (gmap nat DataFrame).

(** Computations that read and extend the heap; [None] is a dangling
    reference, which a Python program cannot produce. *)
Definition M (A : Type) : Type := heap → option (A * heap).

Definition ret {A : Type} (x : A) : M A := λ h, Some (x, h).

Definition bind {A B : Type} (c : M A) (k : A → M B) : M B :=
  λ h, match c h with
       | Some (x, h') => k x h'
       | None => None
       end.

Notation "x ←' c ; k" := (bind c (λ x, k))
  (at level 20, c at level 100, k at level 200, right associativity,
   only parsing).

(** A new object holding [df]. *)
Definition alloc (df : DataFrame) : M nat :=
  λ h, let l := fresh (dom h) in Some (l, <[l := df]> h).

Definition read (l : nat) : M DataFrame :=
  λ h, match h !! l with
       | Some df => Some (df, h)
       | None => None
       end.

(** [df.copy()] *)
Definition copy (l : nat) : M nat :=
  df ←' read l; alloc df.

(** [df[mask]], the mask being computed from [df] itself. *)
Definition getitem (l : nat) (mask : DataFrame → list bool) : M nat :=
  df ←' read l; alloc (getitem_mask df (mask df)).

(** [filter_data] with [df] and [filtered_df] as references: each
    assignment rebinds the local name [filtered_df] to a new object. *)
Definition filter_data (df : option nat) (filters : Filters) : M (option nat) :=
  match df with
  | None => ret None
  | Some df =>
      filtered_df ←' copy df;
      filtered_df ←' match truthy_list (severity filters) with
                     | Some values => getitem filtered_df (mask_severity values)
                     | None => ret filtered_df
                     end;
      filtered_df ←' match vehicles_range filters with
                     | Some (min_v, max_v) =>
                         getitem filtered_df (mask_vehicles min_v max_v)
                     | None => ret filtered_df
                     end;
      filtered_df ←' (if truthy_bool (pedestrians filters)
                      then getitem filtered_df mask_pedestrians
                      else ret filtered_df);
      filtered_df ←' (if truthy_bool (cyclists filters)
                      then getitem filtered_df mask_cyclists
                      else ret filtered_df);
      filtered_df ←' match casualties_range filters with
                     | Some (min_c, max_c) =>
                         getitem filtered_df (mask_casualties min_c max_c)
                     | None => ret filtered_df
                     end;
      filtered_df ←' match response_time_range filters with
                     | Some (min_t, max_t) =>
                         getitem filtered_df (mask_response_time min_t max_t)
                     | None => ret filtered_df
                     end;
      filtered_df ←' match truthy_list (causes filters) with
                     | Some values => getitem filtered_df (mask_causes values)
                     | None => ret filtered_df
                     end;
      ret (Some filtered_df)
  end.

End Store.

(** ** Aggregation ([utils/data_processing.py]) *)

(** [calculate_summary_stats(df)]: the result dict; the empty dict for
    [None] and for an empty frame. *)
Definition calculate_summary_stats (df : option DataFrame) : gmap string cell :=
  match df with
  | None | Some [] => ∅
  | Some df =>
      let total_accidents := Fin (Qc_of_nat (length df)) in
      let total_fatalities := series_sum (Number_of_Fatalities <$> df) in
      let total_injuries := series_sum (Number_of_Injuries <$> df) in
      let avg_response_time := series_mean (Emergency_Response_Time <$> df) in
      let total_economic_loss := series_sum (Economic_Loss <$> df) in
      <["total_accidents" := total_accidents]>
      (<["total_fatalities" := total_fatalities]>
      (<["total_injuries" := total_injuries]>
      (<["avg_response_time" := avg_response_time]>
      (<["total_economic_loss" := total_economic_loss]> ∅))))
  end.

(** The frame built by [calculate_rates], column by column. *)
Record RatesFrame : Type := {
  fatality_rate : list cell;
  injury_rate : list cell;
  severity_index : list cell
}.

(** [pd.DataFrame()] *)
Definition empty_rates : RatesFrame :=
  {| fatality_rate := []; injury_rate := []; severity_index := [] |}.

(** [calculate_rates(df)] *)
Definition calculate_rates (df : option DataFrame) : RatesFrame :=
  match df with
  | None | Some [] => empty_rates
  | Some df =>
      {| fatality_rate :=
           series_div (Number_of_Fatalities <$> df)
                      (Number_of_Vehicles_Involved <$> df);
         injury_rate :=
           series_div (Number_of_Injuries <$> df)
                      (Number_of_Vehicles_Involved <$> df);
         severity_index :=
           series_div_scalar
             (series_add
                (series_mul_scalar (Number_of_Fatalities <$> df) (Fin (Qc_of_Z 5)))
                (Number_of_Injuries <$> df))
             (Fin (Qc_of_nat (length df))) |}
  end.

(** ** The loader ([data_loader.load_data]) *)

(** What [read_csv] leaves in a declared numeric column: text that
    [pd.to_numeric] converts to a number, or any other text. *)
Inductive raw_cell : Type :=
  | Numeral (c : cell)
  | Text (s : string).

#[global] Instance raw_cell_eq_dec : EqDecision raw_cell.
Proof. solve_decision. Defined.

(** [pd.to_numeric(_, errors='coerce')] on one cell. *)
Definition to_numeric (v : raw_cell) : cell :=
  match v with
  | Numeral c => c
  | Text _ => NaN
  end.

(** One row of the CSV file after [read_csv]. *)
Record csv_row : Type := {
  csv_Accident_Severity : string;
  csv_Number_of_Vehicles_Involved : raw_cell;
  csv_Pedestrians_Involved : cell;
  csv_Cyclists_Involved : cell;
  csv_Number_of_Injuries : raw_cell;
  csv_Number_of_Fatalities : raw_cell;
  csv_Emergency_Response_Time : raw_cell;
  csv_Driver_Alcohol_Level : raw_cell;
  csv_Traffic_Volume : raw_cell;
  csv_Accident_Cause : string;
  csv_Medical_Cost : raw_cell;
  csv_Economic_Loss : raw_cell;
  csv_Insurance_Claims : cell;
  csv_Year : Z;
  csv_Month : string
}.

#[global] Instance csv_row_eq_dec : EqDecision csv_row.
Proof. solve_decision. Defined.

(** The frame returned by [pd.read_csv]: the column names of the header and
    the rows.  A field of a row whose column is not in the header is not
    part of the frame; subscripting the frame with that column raises
    [KeyError]. *)
Record csv_frame : Type := {
  csv_columns : list string;
  csv_rows : list csv_row
}.

(** The list [numeric_columns] of [load_data]. *)
Definition numeric_columns : list string :=
  ["Number of Vehicles Involved"; "Number of Injuries";
   "Number of Fatalities"; "Emergency Response Time";
   "Driver Alcohol Level"; "Traffic Volume";
   "Medical Cost"; "Economic Loss"].

(** [df[col]] succeeds for every column of [cols]. *)
Definition has_columns (cols : list string) (df : csv_frame) : bool :=
  forallb (λ col, bool_decide (col ∈ csv_columns df)) cols.

(** The month names recognised by the loader. *)
Definition month_names : list (string * Z) :=
  [("January", 1); ("February", 2); ("March", 3); ("April", 4);
   ("May", 5); ("June", 6); ("July", 7); ("August", 8);
   ("September", 9); ("October", 10); ("November", 11); ("December", 12)]%Z.

(** The dict [month_map]. *)
Definition month_map : gmap string Z := list_to_map month_names.

(** What [Series.astype(str)] makes of a missing value.  The repository
    does not pin its pandas: before pandas 3 a missing value becomes the
    text ["nan"]; from pandas 3 on it stays missing. *)
Inductive astype_str_missing : Type :=
  | MissingAsText
  | MissingKept.

(** [Series.astype(str)] on the mapped months; [None] is a missing string.
    With every month mapped the column holds integers; a single unmapped
    month makes it a float column, whose numbers print as ["1.0"], ...,
    ["12.0"]. *)
Definition months_astype_str (mode : astype_str_missing) (months : list (option Z)) :
    list (option string) :=
  if forallb (λ m, bool_decide (is_Some m)) months
  then (λ m : option Z, pretty <$> m) <$> months
  else (λ m : option Z, match m with
             | Some k => Some (pretty k +:+ ".0")
             | None => match mode with
                       | MissingAsText => Some "nan"
                       | MissingKept => None
                       end
             end) <$> months.

(** The strings handed to [pd.to_datetime]:
    [df['Year'].astype(str) + '-' + df['Month'].map(month_map).astype(str) + '-01'];
    concatenation with a missing string is missing. *)
Definition date_strings (mode : astype_str_missing) (df : list csv_row) :
    list (option string) :=
  zip_with (λ (y : string) (m : option string),
              (λ m', y +:+ "-" +:+ m' +:+ "-01") <$> m)
    ((λ r, pretty (csv_Year r)) <$> df)
    (months_astype_str mode ((λ r, month_map !! csv_Month r) <$> df)).

(** A cell of the Date column. *)
Inductive timestamp : Type :=
  | Timestamp (d : date)
  | NaT.

#[global] Instance timestamp_eq_dec : EqDecision timestamp.
Proof. solve_decision. Defined.

(** The loop [df[col] = pd.to_numeric(df[col], errors='coerce')] on one
    row: the cells of the eight numeric columns become numbers or NaN. *)
Definition coerce_row (r : csv_row) : csv_row := {|
  csv_Accident_Severity := csv_Accident_Severity r;
  csv_Number_of_Vehicles_Involved :=
    Numeral (to_numeric (csv_Number_of_Vehicles_Involved r));
  csv_Pedestrians_Involved := csv_Pedestrians_Involved r;
  csv_Cyclists_Involved := csv_Cyclists_Involved r;
  csv_Number_of_Injuries := Numeral (to_numeric (csv_Number_of_Injuries r));
  csv_Number_of_Fatalities := Numeral (to_numeric (csv_Number_of_Fatalities r));
  csv_Emergency_Response_Time :=
    Numeral (to_numeric (csv_Emergency_Response_Time r));
  csv_Driver_Alcohol_Level := Numeral (to_numeric (csv_Driver_Alcohol_Level r));
  csv_Traffic_Volume := Numeral (to_numeric (csv_Traffic_Volume r));
  csv_Accident_Cause := csv_Accident_Cause r;
  csv_Medical_Cost := Numeral (to_numeric (csv_Medical_Cost r));
  csv_Economic_Loss := Numeral (to_numeric (csv_Economic_Loss r));
  csv_Insurance_Claims := csv_Insurance_Claims r;
  csv_Year := csv_Year r;
  csv_Month := csv_Month r
|}.

(** A row of the loaded table: the coerced cells and the Date. *)
Abbreviation loaded_row := (csv_row * timestamp)%type.

(** The columns read by the engine, for a row that has a date. *)
Definition convert_row (r : csv_row) (d : date) : row := {|
  Accident_Severity := csv_Accident_Severity r;
  Number_of_Vehicles_Involved := to_numeric (csv_Number_of_Vehicles_Involved r);
  Pedestrians_Involved := csv_Pedestrians_Involved r;
  Cyclists_Involved := csv_Cyclists_Involved r;
  Number_of_Injuries := to_numeric (csv_Number_of_Injuries r);
  Number_of_Fatalities := to_numeric (csv_Number_of_Fatalities r);
  Emergency_Response_Time := to_numeric (csv_Emergency_Response_Time r);
  Accident_Cause := csv_Accident_Cause r;
  Medical_Cost := to_numeric (csv_Medical_Cost r);
  Economic_Loss := to_numeric (csv_Economic_Loss r);
  Insurance_Claims := csv_Insurance_Claims r;
  Year := csv_Year r;
  Month := csv_Month r;
  Date := d
|}.

(** The loaded table as the rows of the engine; [None] when a Date is
    [NaT]. *)
Definition typed_rows (loaded : list loaded_row) : option DataFrame :=
  mapM (λ lr : loaded_row,
          match lr.2 with
          | Timestamp d => Some (convert_row lr.1 d)
          | NaT => None
          end) loaded.

Section Loader.

(** The date parser behind [pd.to_datetime]; [None] is a parse error. *)
Variable parse_datetime : string → option date.

(** [pd.to_datetime(strings)] with the default [errors='raise']: a missing
    string gives [NaT]; one string that does not parse raises for the whole
    column. *)
Definition to_datetime (strings : list (option string)) : option (list timestamp) :=
  mapM (λ s : option string,
          match s with
          | Some s => Timestamp <$> parse_datetime s
          | None => Some NaT
          end) strings.

(** The Date cell that [pd.to_datetime] makes of one date string. *)
Definition dated (s : option string) (t : timestamp) : Prop :=
  match s with
  | Some s => ∃ d, parse_datetime s = Some d ∧ t = Timestamp d
  | None => t = NaT
  end.

(** [load_data()].  [source] is the outcome of [pd.read_csv]: [None] when
    it raised.  Any exception inside the [try] block (a [KeyError] for a
    column that the frame lacks, a parse error of [pd.to_datetime]) is
    caught and turned into the result [None]. *)
Definition load_data (mode : astype_str_missing) (source : option csv_frame) :
    option (list loaded_row) :=
  match source with
  | None => None
  | Some df =>
      if negb (has_columns numeric_columns df) then None
      else if negb (has_columns ["Year"; "Month"] df) then None
      else
        match to_datetime (date_strings mode (csv_rows df)) with
        | None => None
        | Some dates =>
            Some (zip_with (λ r t, (coerce_row r, t)) (csv_rows df) dates)
        end
  end.

End Loader.

(** A parser for the strings ["<year>-<month>-<day>"] with a four-digit year
    from 1678 to 2261 (inside the range of a timestamp), decimal month 1 to
    12 and day 1, used to run the loader on concrete tables. *)
Definition digit_of (a : ascii) : option Z :=
  let n := Z.of_nat (nat_of_ascii a) in
  if bool_decide (48 ≤ n ≤ 57)%Z then Some (n - 48)%Z else None.

Fixpoint digits_from (acc : Z) (l : list ascii) : option Z :=
  match l with
  | [] => Some acc
  | a :: l' =>
      match digit_of a with
      | Some d => digits_from (10 * acc + d)%Z l'
      | None => None
      end
  end.

Definition parse_digits (l : list ascii) : option Z :=
  match l with
  | [] => None
  | _ => digits_from 0%Z l
  end.

(** The characters before the first ["-"], and those after it. *)
Fixpoint split_dash (l : list ascii) : list ascii * option (list ascii) :=
  match l with
  | [] => ([], None)
  | a :: l' =>
      if bool_decide (a = "-"%char) then ([], Some l')
      else let '(tok, rest) := split_dash l' in (a :: tok, rest)
  end.

Definition parse_ymd (s : string) : option date :=
  let '(y, rest) := split_dash (list_ascii_of_string s) in
  match rest with
  | Some rest =>
      let '(m, rest) := split_dash rest in
      match rest with
      | Some d =>
          match parse_digits y, parse_digits m, parse_digits d with
          | Some y, Some m, Some d =>
              if bool_decide (1678 ≤ y ≤ 2261)%Z
                 && bool_decide (1 ≤ m ≤ 12)%Z && bool_decide (d = 1)%Z
              then Some {| year := y; month := m |}
              else None
          | _, _, _ => None
          end
      | None => None
      end
  | None => None
  end.

(** ** Period-over-period variations ([pages/temporal.py], [pages/financial.py]) *)

(** [filtered_df['Date'].max()]; [None] is [NaT], the maximum of an empty
    column. *)
Definition max_date (df : DataFrame) : option date :=
  foldr (λ r acc,
           match acc with
           | Some d => if date_le d (Date r) then Some (Date r) else Some d
           | None => Some (Date r)
           end) None df.

(** [(current - previous) / previous * 100] on numpy scalars. *)
Definition pct_change (current previous : cell) : cell :=
  cell_mul (cell_div (cell_sub current previous) previous) (Fin (Qc_of_Z 100)).

(** True division of Python integers; [None] is [ZeroDivisionError]. *)
Definition py_truediv (a b : Z) : option Qc :=
  if bool_decide (b = 0)%Z then None else Some (Qc_of_Z a / Qc_of_Z b).

Module Temporal.

(** [filtered_df[filtered_df['Date'].dt.year == current_year.year]];
    against [NaT] no row compares equal. *)
Definition current_data (filtered_df : DataFrame) : DataFrame :=
  match max_date filtered_df with
  | Some current_year =>
      getitem_mask filtered_df
        ((λ r, bool_decide (year (Date r) = year current_year)) <$> filtered_df)
  | None => []
  end.

(** [previous_year = current_year - pd.DateOffset(years=1)] *)
Definition previous_data (filtered_df : DataFrame) : DataFrame :=
  match max_date filtered_df with
  | Some current_year =>
      getitem_mask filtered_df
        ((λ r, bool_decide (year (Date r) = year current_year - 1)%Z)
           <$> filtered_df)
  | None => []
  end.

(** [variation_accidents]; the outer [None] is a raised exception. *)
Definition variation_accidents (filtered_df : DataFrame) : option cell :=
  let n_current := Z.of_nat (length (current_data filtered_df)) in
  let n_previous := Z.of_nat (length (previous_data filtered_df)) in
  if bool_decide (n_previous > 0)%Z
  then q ← py_truediv (n_current - n_previous) n_previous;
       Some (Fin (q * Qc_of_Z 100))
  else Some (Fin 0).

(** The guarded expression shared by [variation_fatalities] and
    [variation_injuries]. *)
Definition variation (current previous : cell) : cell :=
  if cell_gt previous (Fin 0) then pct_change current previous else Fin 0.

Definition variation_fatalities (filtered_df : DataFrame) : cell :=
  let current_fatalities :=
    series_sum (Number_of_Fatalities <$> current_data filtered_df) in
  let previous_fatalities :=
    series_sum (Number_of_Fatalities <$> previous_data filtered_df) in
  variation current_fatalities previous_fatalities.

Definition variation_injuries (filtered_df : DataFrame) : cell :=
  let current_injuries :=
    series_sum (Number_of_Injuries <$> current_data filtered_df) in
  let previous_injuries :=
    series_sum (Number_of_Injuries <$> previous_data filtered_df) in
  variation current_injuries previous_injuries.

End Temporal.

Module Financial.

(** [d - pd.DateOffset(months=1)] for a first-of-month timestamp. *)
Definition minus_one_month (d : date) : date :=
  if bool_decide (month d = 1)%Z
  then {| year := year d - 1; month := 12 |}
  else {| year := year d; month := month d - 1 |}.

(** [filtered_df[filtered_df['Date'] <= previous_period]]; against [NaT]
    every comparison is false. *)
Definition previous_df (filtered_df : DataFrame) : DataFrame :=
  match max_date filtered_df with
  | Some d =>
      let previous_period := minus_one_month d in
      getitem_mask filtered_df
        ((λ r, date_le (Date r) previous_period) <$> filtered_df)
  | None => []
  end.

(** The unguarded expression of [kpi1], [kpi2] and [kpi3] for the column
    [col]. *)
Definition variation_total (col : row → cell) (filtered_df : DataFrame) : cell :=
  let total := series_sum (col <$> filtered_df) in
  pct_change total (series_sum (col <$> previous_df filtered_df)).

Definition variation_medical_cost : DataFrame → cell := variation_total Medical_Cost.
Definition variation_economic_loss : DataFrame → cell := variation_total Economic_Loss.
Definition variation_insurance_claims : DataFrame → cell := variation_total Insurance_Claims.

(** [prev_avg] of [kpi4]: a numpy scalar over a Python integer. *)
Definition prev_avg (filtered_df : DataFrame) : cell :=
  cell_div (series_sum (Medical_Cost <$> previous_df filtered_df))
           (Fin (Qc_of_nat (length (previous_df filtered_df)))).

(** [kpi4]: the variation of the mean cost per accident. *)
Definition variation_avg_cost (filtered_df : DataFrame) : cell :=
  let total_cost := series_sum (Medical_Cost <$> filtered_df) in
  let avg_cost := cell_div total_cost (Fin (Qc_of_nat (length filtered_df))) in
  pct_change avg_cost (prev_avg filtered_df).

End Financial.

(** ** Active filters ([components/filters.py]) *)

(** A value of the dict returned by [get_active_filters]: the list of a
    multiselect, or a formatted text. *)
Inductive active_value : Type :=
  | ActiveList (values : list string)
  | ActiveText (text : string).

#[global] Instance active_value_eq_dec : EqDecision active_value.
Proof. solve_decision. Defined.

(** What [display_active_filters] sends to the page. *)
Inductive st_call : Type :=
  | st_write (text : string)
  | st_subheader (text : string).

#[global] Instance st_call_eq_dec : EqDecision st_call.
Proof. solve_decision. Defined.

(** The keys of the result, in the order in which the code inserts them. *)
Definition active_keys : list string :=
  ["Sévérité"; "Véhicules"; "Piétons"; "Cyclistes"; "Victimes";
   "Temps de réponse"; "Causes"].

Section ActiveFilters.

(** Python's [str] of a slider bound, as the f-strings print it. *)
Variable str : Qc → string.

(** [f"{r[0]} - {r[1]}"] *)
Definition range_text (r : Qc * Qc) : string := str r.1 +:+ " - " +:+ str r.2.

(** [get_active_filters()], reading the dict [st.session_state.filters].
    The dict keeps insertion order, so the result is the list of its items;
    [None] is the [KeyError] of a subscript with an absent key. *)
Definition get_active_filters (filters : Filters) : option (list (string * active_value)) :=
  let active_filters : list (string * active_value) := [] in
  sev ← severity filters;
  let active_filters :=
    if bool_decide (sev ≠ [])
    then active_filters ++ [("Sévérité", ActiveList sev)] else active_filters in
  veh ← vehicles_range filters;
  let active_filters :=
    if bool_decide (veh ≠ (Qc_of_Z 1, Qc_of_Z 4))
    then active_filters ++ [("Véhicules", ActiveText (range_text veh))]
    else active_filters in
  ped ← pedestrians filters;
  let active_filters :=
    if (ped : bool) then active_filters ++ [("Piétons", ActiveText "Oui")]
    else active_filters in
  cyc ← cyclists filters;
  let active_filters :=
    if (cyc : bool) then active_filters ++ [("Cyclistes", ActiveText "Oui")]
    else active_filters in
  cas ← casualties_range filters;
  let active_filters :=
    if bool_decide (cas ≠ (Qc_of_Z 0, Qc_of_Z 23))
    then active_filters ++ [("Victimes", ActiveText (range_text cas))]
    else active_filters in
  rt ← response_time_range filters;
  let active_filters :=
    if bool_decide (rt ≠ (Qc_of_Z 5, Qc_of_Z 60))
    then active_filters
           ++ [("Temps de réponse", ActiveText (range_text rt +:+ " min"))]
    else active_filters in
  cau ← causes filters;
  let active_filters :=
    if bool_decide (cau ≠ [])
    then active_filters ++ [("Causes", ActiveList cau)] else active_filters in
  Some active_filters.

(** One line of the summary: [f"**{key}:** {value}"], a list being joined
    with [", "]. *)
Definition active_line (item : string * active_value) : st_call :=
  let value :=
    match item.2 with
    | ActiveList values => String.concat ", " values
    | ActiveText text => text
    end in
  st_write ("**" +:+ item.1 +:+ ":** " +:+ value).

(** [display_active_filters()]: the calls made on the page, in order. *)
Definition display_active_filters (filters : Filters) : option (list st_call) :=
  active_filters ← get_active_filters filters;
  Some (match active_filters with
        | [] => []
        | _ => st_write "---" :: st_subheader "Filtres actifs"
               :: (active_line <$> active_filters)
        end).

End ActiveFilters.

(** [str] of an integer slider bound. *)
Definition str_int (q : Qc) : string := pretty (Qnum (this q)).

(** ** Grouping by date ([utils/data_processing.prepare_temporal_data]) *)

(** Chronological order of first-of-month timestamps. *)
Definition date_lt (a b : date) : bool :=
  bool_decide (year a < year b)%Z
  || (bool_decide (year a = year b) && bool_decide (month a < month b)%Z).

(** The sorted list of distinct keys that [groupby] iterates over. *)
Fixpoint insert_key (d : date) (keys : list date) : list date :=
  match keys with
  | [] => [d]
  | k :: keys' =>
      if bool_decide (d = k) then keys
      else if date_lt d k then d :: keys
      else k :: insert_key d keys'
  end.

Definition group_keys (dates : list date) : list date :=
  foldr insert_key [] dates.

(** One row of the frame returned by [prepare_temporal_data]. *)
Record temporal_row : Type := {
  t_Date : date;
  t_Number_of_Fatalities : cell;
  t_Number_of_Injuries : cell;
  t_Economic_Loss : cell
}.

#[global] Instance temporal_row_eq_dec : EqDecision temporal_row.
Proof. solve_decision. Defined.

(** The rows of one group. *)
Definition group_of (d : date) (df : DataFrame) : DataFrame :=
  filter (λ r, Date r = d) df.

(** [df.groupby('Date').agg({...: 'sum'}).reset_index()]: one row per
    distinct date, in increasing order of date, with the sums of the three
    columns over the rows of that date (NaN cells left out). *)
Definition groupby_Date_sum (df : DataFrame) : list temporal_row :=
  (λ d, {| t_Date := d;
           t_Number_of_Fatalities :=
             series_sum (Number_of_Fatalities <$> group_of d df);
           t_Number_of_Injuries :=
             series_sum (Number_of_Injuries <$> group_of d df);
           t_Economic_Loss := series_sum (Economic_Loss <$> group_of d df) |})
  <$> group_keys (Date <$> df).

(** [prepare_temporal_data(df)]; [pd.DataFrame()] for [None] and for an
    empty frame. *)
Definition prepare_temporal_data (df : option DataFrame) : list temporal_row :=
  match df with
  | None | Some [] => []
  | Some df => groupby_Date_sum df
  end.

(** ** The overview page ([overview.main]) *)

(** The result of a piece of Python code that may raise. *)
Inductive outcome (A : Type) : Type :=
  | Returned (x : A)
  | KeyError (key : string)
  | ZeroDivisionError.

Arguments Returned {A} x.
Arguments KeyError {A} key.
Arguments ZeroDivisionError {A}.

Definition outcome_bind {A B : Type} (o : outcome A) (k : A → outcome B) : outcome B :=
  match o with
  | Returned x => k x
  | KeyError key => KeyError key
  | ZeroDivisionError => ZeroDivisionError
  end.

Module Overview.

(** The numbers shown by the five metrics of the page. *)
Record metrics : Type := {
  share_of_accidents : cell;
  fatalities_per_accident : cell;
  injuries_per_accident : cell;
  response_time_delta : cell;
  share_of_economic_loss : cell
}.

(** [stats[key]] *)
Definition getitem (stats : gmap string cell) (key : string) : outcome cell :=
  match stats !! key with
  | Some v => Returned v
  | None => KeyError key
  end.

(** [x / len(df)] for the Python integer [x]. *)
Definition int_truediv (x : cell) (n : nat) : outcome cell :=
  if bool_decide (n = 0%nat) then ZeroDivisionError
  else Returned (cell_div x (Fin (Qc_of_nat n))).

(** The part of [main()] that follows a successful load: filtering, the
    summary, and the values and deltas of the metrics in the order in which
    the page evaluates them. *)
Definition main (df : DataFrame) (filters : Filters) : outcome metrics :=
  let filtered_df := filter_data (Some df) filters in
  let stats := calculate_summary_stats filtered_df in
  outcome_bind (getitem stats "total_accidents") (λ total_accidents,
  outcome_bind (int_truediv total_accidents (length df)) (λ share,
  outcome_bind (getitem stats "total_fatalities") (λ total_fatalities,
  outcome_bind (getitem stats "total_injuries") (λ total_injuries,
  outcome_bind (getitem stats "avg_response_time") (λ avg_response_time,
  outcome_bind (getitem stats "total_economic_loss") (λ total_economic_loss,
  Returned
    {| share_of_accidents := cell_mul share (Fin (Qc_of_Z 100));
       fatalities_per_accident := cell_div total_fatalities total_accidents;
       injuries_per_accident := cell_div total_injuries total_accidents;
       response_time_delta :=
         cell_sub avg_response_time
                  (series_mean (Emergency_Response_Time <$> df));
       share_of_economic_loss :=
         cell_mul (cell_div total_economic_loss
                            (series_sum (Economic_Loss <$> df)))
                  (Fin (Qc_of_Z 100)) |})))))).

End Overview.

(** ** The key indicators of the home page ([pages/home.render_metrics]) *)

Module Home.

(** [df['Year'].max()]; [None] is the [nan] of an empty column. *)
Definition max_year (df : DataFrame) : option Z :=
  foldr (λ r acc, match acc with
                  | Some m => Some (Z.max (Year r) m)
                  | None => Some (Year r)
                  end) None df.

(** [df['Year'].min()] *)
Definition min_year (df : DataFrame) : option Z :=
  foldr (λ r acc, match acc with
                  | Some m => Some (Z.min (Year r) m)
                  | None => Some (Year r)
                  end) None df.

(** [len(df[df['Year'] == df['Year'].max()])]; nothing compares equal to
    [nan]. *)
Definition latest_year_count (df : DataFrame) : nat :=
  length (getitem_mask df
            ((λ r, bool_decide (Some (Year r) = max_year df)) <$> df)).

(** [df['Year'].max() - df['Year'].min() + 1] *)
Definition years_covered (df : DataFrame) : option Z :=
  hi ← max_year df; lo ← min_year df; Some (hi - lo + 1)%Z.

End Home.

(** * Vocabulary of the statements *)

(** ** Replacing one field of a filter specification *)

Definition with_severity (v : option (list string)) (S : Filters) : Filters :=
  {| severity := v; vehicles_range := vehicles_range S;
     pedestrians := pedestrians S; cyclists := cyclists S;
     casualties_range := casualties_range S;
     response_time_range := response_time_range S; causes := causes S |}.

Definition with_vehicles_range (v : option (Qc * Qc)) (S : Filters) : Filters :=
  {| severity := severity S; vehicles_range := v;
     pedestrians := pedestrians S; cyclists := cyclists S;
     casualties_range := casualties_range S;
     response_time_range := response_time_range S; causes := causes S |}.

Definition with_pedestrians (v : option bool) (S : Filters) : Filters :=
  {| severity := severity S; vehicles_range := vehicles_range S;
     pedestrians := v; cyclists := cyclists S;
     casualties_range := casualties_range S;
     response_time_range := response_time_range S; causes := causes S |}.

Definition with_cyclists (v : option bool) (S : Filters) : Filters :=
  {| severity := severity S; vehicles_range := vehicles_range S;
     pedestrians := pedestrians S; cyclists := v;
     casualties_range := casualties_range S;
     response_time_range := response_time_range S; causes := causes S |}.

Definition with_casualties_range (v : option (Qc * Qc)) (S : Filters) : Filters :=
  {| severity := severity S; vehicles_range := vehicles_range S;
     pedestrians := pedestrians S; cyclists := cyclists S;
     casualties_range := v;
     response_time_range := response_time_range S; causes := causes S |}.

Definition with_response_time_range (v : option (Qc * Qc)) (S : Filters) : Filters :=
  {| severity := severity S; vehicles_range := vehicles_range S;
     pedestrians := pedestrians S; cyclists := cyclists S;
     casualties_range := casualties_range S;
     response_time_range := v; causes := causes S |}.

Definition with_causes (v : option (list string)) (S : Filters) : Filters :=
  {| severity := severity S; vehicles_range := vehicles_range S;
     pedestrians := pedestrians S; cyclists := cyclists S;
     casualties_range := casualties_range S;
     response_time_range := response_time_range S; causes := v |}.

(** ** Restricting one field *)

(** A range with narrower bounds. *)
Definition range_narrowed (r r' : option (Qc * Qc)) : Prop :=
  ∃ lo hi lo' hi',
    r = Some (lo, hi) ∧ r' = Some (lo', hi') ∧ lo ≤ lo' ∧ hi' ≤ hi.

(** A boolean switched from false to true. *)
Definition switched_on (b b' : option bool) : Prop :=
  truthy_bool b = false ∧ b' = Some true.

(** A set with elements added. *)
Definition elements_added (v v' : option (list string)) : Prop :=
  ∃ l l', v = Some l ∧ v' = Some l' ∧ l ⊆ l' ∧ ¬ l' ⊆ l.

(** A set that imposed no constraint (absent or empty), or a set shrunk to
    a non-empty subset. *)
Definition set_narrowed (v v' : option (list string)) : Prop :=
  truthy_list v = None
  ∨ ∃ l l', v = Some l ∧ v' = Some l' ∧ l' ≠ [] ∧ l' ⊆ l.

(** [restricts set_rel S S']: [S'] is [S] with exactly one field replaced
    by a restricted value; [set_rel] says what restricting a set field is. *)
Inductive restricts (set_rel : relation (option (list string))) :
    Filters → Filters → Prop :=
  | restricts_severity S v :
      set_rel (severity S) v → restricts set_rel S (with_severity v S)
  | restricts_vehicles S v :
      range_narrowed (vehicles_range S) v →
      restricts set_rel S (with_vehicles_range v S)
  | restricts_pedestrians S v :
      switched_on (pedestrians S) v → restricts set_rel S (with_pedestrians v S)
  | restricts_cyclists S v :
      switched_on (cyclists S) v → restricts set_rel S (with_cyclists v S)
  | restricts_casualties S v :
      range_narrowed (casualties_range S) v →
      restricts set_rel S (with_casualties_range v S)
  | restricts_response_time S v :
      range_narrowed (response_time_range S) v →
      restricts set_rel S (with_response_time_range v S)
  | restricts_causes S v :
      set_rel (causes S) v → restricts set_rel S (with_causes v S).

(** ** Rows inside the bounds of the sliders *)

(** The three range predicates of the start-up specification on one row. *)
Definition within_slider_bounds (r : row) : bool :=
  in_range (Number_of_Vehicles_Involved r) (Some (Qc_of_Z 1, Qc_of_Z 4))
  && in_range (cell_add (Number_of_Injuries r) (Number_of_Fatalities r))
              (Some (Qc_of_Z 0, Qc_of_Z 23))
  && in_range (Emergency_Response_Time r) (Some (Qc_of_Z 5, Qc_of_Z 60)).

(** ** Example tables *)

Definition january_2024 : date := {| year := 2024; month := 1 |}.

Definition example_row (sev : string) (vehicles injuries fatalities : Z)
    (response_time : cell) (cause : string) (d : date) : row := {|
  Accident_Severity := sev;
  Number_of_Vehicles_Involved := Fin (Qc_of_Z vehicles);
  Pedestrians_Involved := Fin 0;
  Cyclists_Involved := Fin 0;
  Number_of_Injuries := Fin (Qc_of_Z injuries);
  Number_of_Fatalities := Fin (Qc_of_Z fatalities);
  Emergency_Response_Time := response_time;
  Accident_Cause := cause;
  Medical_Cost := Fin (Qc_of_Z 1000);
  Economic_Loss := Fin (Qc_of_Z 5000);
  Insurance_Claims := Fin (Qc_of_Z 2000);
  Year := year d;
  Month := "January";
  Date := d
|}.

Definition severe_row : row :=
  example_row "Severe" 2 3 1 (Fin (Qc_of_Z 12)) "Speeding" january_2024.

Definition minor_row : row :=
  example_row "Minor" 1 0 0 (Fin (Qc_of_Z 8)) "Weather" january_2024.

(** A row whose response time could not be read. *)
Definition no_response_time_row : row :=
  example_row "Minor" 1 0 0 NaN "Weather" january_2024.

(** A row with no vehicle recorded. *)
Definition no_vehicle_row : row :=
  example_row "Severe" 0 3 1 (Fin (Qc_of_Z 12)) "Speeding" january_2024.

Definition only_severe : Filters :=
  with_severity (Some ["Severe"]) initialize_filters.

Definition severe_or_minor : Filters :=
  with_severity (Some ["Severe"; "Minor"]) initialize_filters.

(** The keys of the dict returned for a non-empty frame. *)
Definition summary_keys : gset string :=
  {[ "total_accidents"; "total_fatalities"; "total_injuries";
     "avg_response_time"; "total_economic_loss" ]}.

(** The rows in which the column [col] holds a value. *)
Definition rows_with (col : row → cell) (D : DataFrame) : DataFrame :=
  filter (λ r, col r ≠ NaN) D.

(** The plain sum of a column, no cell left out. *)
Definition plain_sum (a : list cell) : cell := foldr cell_add (Fin 0) a.

(** [fatalities*5 + injuries] for one row. *)
Definition severity_numerator (r : row) : cell :=
  cell_add (cell_mul (Number_of_Fatalities r) (Fin (Qc_of_Z 5)))
           (Number_of_Injuries r).

(** A row without casualties. *)
Definition no_casualty_row : row :=
  example_row "Minor" 1 0 0 (Fin (Qc_of_Z 8)) "Weather" january_2024.

(** ** Example sources *)

(** The twelve canonical English month names. *)
Definition canonical_months : list string := month_names.*1.

Definition example_csv_row (y : Z) (m : string) : csv_row := {|
  csv_Accident_Severity := "Minor";
  csv_Number_of_Vehicles_Involved := Numeral (Fin (Qc_of_Z 1));
  csv_Pedestrians_Involved := Fin 0;
  csv_Cyclists_Involved := Fin 0;
  csv_Number_of_Injuries := Numeral (Fin 0);
  csv_Number_of_Fatalities := Numeral (Fin 0);
  csv_Emergency_Response_Time := Text "n/a";
  csv_Driver_Alcohol_Level := Numeral (Fin 0);
  csv_Traffic_Volume := Numeral (Fin (Qc_of_Z 300));
  csv_Accident_Cause := "Weather";
  csv_Medical_Cost := Numeral (Fin (Qc_of_Z 1000));
  csv_Economic_Loss := Numeral (Fin (Qc_of_Z 5000));
  csv_Insurance_Claims := Fin (Qc_of_Z 2000);
  csv_Year := y;
  csv_Month := m
|}.

(** The header of a file with every column that the engine reads. *)
Definition full_header : list string :=
  ["Accident Severity"; "Number of Vehicles Involved"; "Pedestrians Involved";
   "Cyclists Involved"; "Number of Injuries"; "Number of Fatalities";
   "Emergency Response Time"; "Driver Alcohol Level"; "Traffic Volume";
   "Accident Cause"; "Medical Cost"; "Economic Loss"; "Insurance Claims";
   "Year"; "Month"].

(** A frame with the full header. *)
Definition full_frame (rows : list csv_row) : csv_frame :=
  {| csv_columns := full_header; csv_rows := rows |}.

(** The columns that [load_data] subscripts. *)
Definition load_columns : list string := numeric_columns ++ ["Year"; "Month"].

(** A table whose accidents all fall in one month: there is no previous
    period. *)
Definition single_period_table : DataFrame := [severe_row; minor_row].

(** ** Further vocabulary *)

(** A specification none of whose fields constrains: every key is absent or
    holds an empty list or [False]. *)
Definition unconstrained (S : Filters) : Prop :=
  truthy_list (severity S) = None
  ∧ vehicles_range S = None
  ∧ truthy_bool (pedestrians S) = false
  ∧ truthy_bool (cyclists S) = false
  ∧ casualties_range S = None
  ∧ response_time_range S = None
  ∧ truthy_list (causes S) = None.

(** The empty dict [{}]. *)
Definition empty_filters : Filters := {|
  severity := None; vehicles_range := None; pedestrians := None;
  cyclists := None; casualties_range := None; response_time_range := None;
  causes := None
|}.

(** A cell that is a number or missing, not an infinity. *)
Definition finite_or_missing (c : cell) : Prop :=
  c = NaN ∨ ∃ q, c = Fin q.

(** The sum of the numbers of a column. *)
Definition fin_total (a : list cell) : Qc :=
  foldr (λ c acc, match c with Fin q => q + acc | _ => acc end) 0 a.


(** [date_lt] as a relation. *)
Definition date_before (a b : date) : Prop := date_lt a b = true.

(** The source row [r] with every cell of its numeric columns replaced by
    text that is not a number. *)
Definition with_text_cells (r : csv_row) : csv_row := {|
  csv_Accident_Severity := csv_Accident_Severity r;
  csv_Number_of_Vehicles_Involved := Text "?";
  csv_Pedestrians_Involved := csv_Pedestrians_Involved r;
  csv_Cyclists_Involved := csv_Cyclists_Involved r;
  csv_Number_of_Injuries := Text "?";
  csv_Number_of_Fatalities := Text "?";
  csv_Emergency_Response_Time := Text "?";
  csv_Driver_Alcohol_Level := Text "?";
  csv_Traffic_Volume := Text "?";
  csv_Accident_Cause := csv_Accident_Cause r;
  csv_Medical_Cost := Text "?";
  csv_Economic_Loss := Text "?";
  csv_Insurance_Claims := csv_Insurance_Claims r;
  csv_Year := csv_Year r;
  csv_Month := csv_Month r
|}.



Definition december_2023 : date := {| year := 2023; month := 12 |}.

(** An accident of the month before those of [single_period_table]. *)
Definition december_row : row := {|
  Accident_Severity := "Moderate";
  Number_of_Vehicles_Involved := Fin (Qc_of_Z 3);
  Pedestrians_Involved := Fin (Qc_of_Z 1);
  Cyclists_Involved := Fin 0;
  Number_of_Injuries := Fin (Qc_of_Z 2);
  Number_of_Fatalities := NaN;
  Emergency_Response_Time := Fin (Qc_of_Z 20);
  Accident_Cause := "Drunk Driving";
  Medical_Cost := Fin (Qc_of_Z 500);
  Economic_Loss := Fin (Qc_of_Z 2500);
  Insurance_Claims := Fin (Qc_of_Z 800);
  Year := 2023;
  Month := "December";
  Date := december_2023
|}.

(** Accidents of two consecutive months, the later month first. *)
Definition two_period_table : DataFrame := [severe_row; december_row; minor_row].

(** * Properties *)

(** Closed facts on concrete tables are decided by evaluation. *)
Ltac by_evaluation :=
  match goal with
  | |- ?P => apply (bool_decide_unpack P); vm_compute; exact I
  end.

(** ** Masks and boolean indexing *)

Lemma getitem_mask_fmap {A : Type} (p : A → bool) (df : list A) :
  getitem_mask df (p <$> df) = filter (λ r, p r = true) df.
Proof.
  induction df as [|r df IH]; [done|].
  cbn [fmap list_fmap getitem_mask]. rewrite filter_cons.
  destruct (p r) eqn:Hp.
  - rewrite decide_True by done. by f_equal.
  - rewrite decide_False by done. done.
Qed.

Lemma zip_with_fmap_same {A B C D : Type} (h : B → C → D) (f : A → B) (g : A → C)
    (l : list A) :
  zip_with h (f <$> l) (g <$> l) = (λ x, h (f x) (g x)) <$> l.
Proof. induction l as [|x l IH]; [done|]. cbn. by f_equal. Qed.

Lemma mask_severity_fmap values df :
  mask_severity values df
  = (λ r, bool_decide (Accident_Severity r ∈ values)) <$> df.
Proof. unfold mask_severity, isin. by rewrite <-list_fmap_compose. Qed.

Lemma mask_causes_fmap values df :
  mask_causes values df
  = (λ r, bool_decide (Accident_Cause r ∈ values)) <$> df.
Proof. unfold mask_causes, isin. by rewrite <-list_fmap_compose. Qed.

Lemma mask_range_fmap (col : row → cell) lo hi df :
  mask_and (series_ge (col <$> df) (Fin lo)) (series_le (col <$> df) (Fin hi))
  = (λ r, in_range (col r) (Some (lo, hi))) <$> df.
Proof.
  unfold mask_and, series_ge, series_le. rewrite <-!list_fmap_compose.
  by rewrite zip_with_fmap_same.
Qed.

Lemma mask_casualties_fmap lo hi df :
  mask_casualties lo hi df
  = (λ r, in_range (cell_add (Number_of_Injuries r) (Number_of_Fatalities r))
                   (Some (lo, hi))) <$> df.
Proof.
  unfold mask_casualties, series_add. rewrite zip_with_fmap_same.
  apply (mask_range_fmap
           (λ r, cell_add (Number_of_Injuries r) (Number_of_Fatalities r))).
Qed.

Lemma mask_gt_fmap (col : row → cell) df :
  series_gt (col <$> df) (Fin 0) = (λ r, cell_gt (col r) (Fin 0)) <$> df.
Proof. unfold series_gt. by rewrite <-list_fmap_compose. Qed.

(** ** Each step of the engine is a row-wise filter *)

Lemma filter_True_id {A : Type} (P : A → Prop) `{!∀ x, Decision (P x)} (l : list A) :
  (∀ x, P x) → filter P l = l.
Proof.
  intros HP. induction l as [|x l IH]; [done|].
  rewrite filter_cons_True by done. by f_equal.
Qed.

Lemma filter_severity_spec S df :
  filter_severity S df
  = filter (λ r, in_values (Accident_Severity r) (severity S) = true) df.
Proof.
  unfold filter_severity, in_values. destruct (truthy_list (severity S)).
  - by rewrite mask_severity_fmap, getitem_mask_fmap.
  - by rewrite filter_True_id.
Qed.

Lemma filter_causes_spec S df :
  filter_causes S df
  = filter (λ r, in_values (Accident_Cause r) (causes S) = true) df.
Proof.
  unfold filter_causes, in_values. destruct (truthy_list (causes S)).
  - by rewrite mask_causes_fmap, getitem_mask_fmap.
  - by rewrite filter_True_id.
Qed.

Lemma filter_vehicles_spec S df :
  filter_vehicles S df
  = filter (λ r, in_range (Number_of_Vehicles_Involved r) (vehicles_range S) = true) df.
Proof.
  unfold filter_vehicles. destruct (vehicles_range S) as [[lo hi]|].
  - unfold mask_vehicles. by rewrite mask_range_fmap, getitem_mask_fmap.
  - by rewrite filter_True_id.
Qed.

Lemma filter_response_time_spec S df :
  filter_response_time S df
  = filter (λ r, in_range (Emergency_Response_Time r) (response_time_range S) = true) df.
Proof.
  unfold filter_response_time. destruct (response_time_range S) as [[lo hi]|].
  - unfold mask_response_time. by rewrite mask_range_fmap, getitem_mask_fmap.
  - by rewrite filter_True_id.
Qed.

Lemma filter_casualties_spec S df :
  filter_casualties S df
  = filter (λ r, in_range (cell_add (Number_of_Injuries r) (Number_of_Fatalities r))
                          (casualties_range S) = true) df.
Proof.
  unfold filter_casualties. destruct (casualties_range S) as [[lo hi]|].
  - by rewrite mask_casualties_fmap, getitem_mask_fmap.
  - by rewrite filter_True_id.
Qed.

Lemma filter_pedestrians_spec S df :
  filter_pedestrians S df
  = filter (λ r, involved (Pedestrians_Involved r) (pedestrians S) = true) df.
Proof.
  unfold filter_pedestrians, involved, mask_pedestrians.
  destruct (truthy_bool (pedestrians S)).
  - by rewrite mask_gt_fmap, getitem_mask_fmap.
  - by rewrite filter_True_id.
Qed.

Lemma filter_cyclists_spec S df :
  filter_cyclists S df
  = filter (λ r, involved (Cyclists_Involved r) (cyclists S) = true) df.
Proof.
  unfold filter_cyclists, involved, mask_cyclists.
  destruct (truthy_bool (cyclists S)).
  - by rewrite mask_gt_fmap, getitem_mask_fmap.
  - by rewrite filter_True_id.
Qed.

(** The engine keeps exactly the rows that satisfy the conjunction of the
    seven predicates, in their original order. *)
Lemma filter_data_spec S df :
  filter_data (Some df) S = Some (filter (λ r, row_matches S r = true) df).
Proof.
  unfold filter_data. f_equal.
  rewrite filter_causes_spec, filter_response_time_spec, filter_casualties_spec,
    filter_cyclists_spec, filter_pedestrians_spec, filter_vehicles_spec,
    filter_severity_spec.
  rewrite !list_filter_filter. apply list_filter_iff. intros r.
  unfold row_matches. rewrite !andb_true_iff. tauto.
Qed.

(** The scenarios of the specification on the two-row table. *)
Example filter_data_only_severe :
  filter_data (Some [severe_row; minor_row]) only_severe = Some [severe_row].
Proof. by_evaluation. Qed.

Example filter_data_at_least_one_casualty :
  filter_data (Some [severe_row; minor_row])
    (with_casualties_range (Some (Qc_of_Z 1, Qc_of_Z 23)) initialize_filters)
  = Some [severe_row].
Proof. by_evaluation. Qed.

Example filter_data_in_bounds_table :
  filter_data (Some [severe_row; minor_row]) initialize_filters
  = Some [severe_row; minor_row].
Proof. by_evaluation. Qed.

(** ** The failure result of the loader passes through *)

(** C10: for every filter specification, [filter_data(None, filters)] is
    [None]: it neither raises nor returns an empty frame; on the heap it
    returns [None] without creating or changing any object. *)
Theorem filter_data_None (S : Filters) (h : Store.heap) :
  filter_data None S = None
  ∧ filter_data None S ≠ Some []
  ∧ Store.filter_data None S h = Some (None, h).
Proof. done. Qed.

(** ** The start-up specification *)

Lemma row_matches_initialize_filters r :
  row_matches initialize_filters r = within_slider_bounds r.
Proof.
  unfold row_matches, within_slider_bounds, in_values, involved. cbn.
  by rewrite !andb_true_r.
Qed.

Lemma filter_id_Forall {A : Type} (P : A → Prop) `{!∀ x, Decision (P x)} (l : list A) :
  filter P l = l ↔ Forall P l.
Proof.
  split.
  - intros Hf. apply Forall_forall. intros x Hx.
    rewrite <-Hf in Hx. by apply list_elem_of_filter in Hx as [? _].
  - induction 1 as [|x l Hx _ IH]; [done|].
    rewrite filter_cons_True by done. by f_equal.
Qed.

(** C2, as the code has it: under the start-up specification the three
    range predicates are still evaluated, so the engine returns exactly the
    rows inside the slider bounds (vehicles in [1,4], injuries + fatalities
    in [0,23], response time present and in [5,60]), in order; the result is
    the input itself precisely when every row is inside these bounds. *)
Theorem filter_data_initialize_filters (D : DataFrame) :
  filter_data (Some D) initialize_filters
  = Some (filter (λ r, within_slider_bounds r = true) D)
  ∧ (filter_data (Some D) initialize_filters = Some D
     ↔ Forall (λ r, within_slider_bounds r = true) D).
Proof.
  assert (filter_data (Some D) initialize_filters
          = Some (filter (λ r, within_slider_bounds r = true) D)) as Heq.
  { rewrite filter_data_spec. f_equal. apply list_filter_iff. intros r.
    by rewrite row_matches_initialize_filters. }
  split; [done|]. rewrite Heq, <-filter_id_Forall.
  split; [by intros [= ->]|by intros ->].
Qed.

(** C2 fails as stated: a table whose only row has a missing response time
    is emptied by the start-up specification. *)
Lemma identity_law_fails_on_missing_response_time :
  filter_data (Some [no_response_time_row]) initialize_filters = Some []
  ∧ filter_data (Some [no_response_time_row]) initialize_filters
    ≠ Some [no_response_time_row].
Proof. by_evaluation. Qed.

(** ** Monotonicity *)

Lemma in_range_narrowed v r r' :
  range_narrowed r r' → in_range v r' = true → in_range v r = true.
Proof.
  intros (lo & hi & lo' & hi' & -> & -> & Hlo & Hhi).
  unfold in_range, cell_ge, cell_le.
  destruct v as [a| | |]; try done.
  rewrite !andb_true_iff, !bool_decide_eq_true. intros [H1 H2]. split.
  - by apply Qcle_trans with lo'.
  - by apply Qcle_trans with hi'.
Qed.

Lemma involved_switched_on c b b' :
  switched_on b b' → involved c b' = true → involved c b = true.
Proof. intros [Hb _] _. unfold involved. by rewrite Hb. Qed.

Lemma in_values_narrowed s v v' :
  set_narrowed v v' → in_values s v' = true → in_values s v = true.
Proof.
  unfold in_values. intros [->|(l & l' & -> & -> & Hne & Hsub)]; [done|].
  destruct l' as [|x' l']; [done|]. cbn.
  rewrite bool_decide_eq_true. intros Hin. apply Hsub in Hin.
  destruct l as [|x l]; [by apply elem_of_nil in Hin|].
  cbn. by rewrite bool_decide_eq_true.
Qed.

Lemma row_matches_restricts S S' r :
  restricts set_narrowed S S' → row_matches S' r = true → row_matches S r = true.
Proof.
  intros HR. unfold row_matches. rewrite !andb_true_iff.
  destruct HR as [S v H|S v H|S v H|S v H|S v H|S v H|S v H]; cbn;
    intros [[[[[[H1 H2] H3] H4] H5] H6] H7]; repeat split;
    eauto using in_range_narrowed, involved_switched_on, in_values_narrowed.
Qed.

Lemma filter_weaken_sublist {A : Type} (P Q : A → Prop)
    `{!∀ x, Decision (P x)} `{!∀ x, Decision (Q x)} (l : list A) :
  (∀ x, P x → Q x) → filter P l `sublist_of` filter Q l.
Proof.
  intros HPQ.
  replace (filter P l) with (filter P (filter Q l)); [apply sublist_filter|].
  rewrite list_filter_filter. apply list_filter_iff.
  intros x. split; [by intros [? _]|by split; [|apply HPQ]].
Qed.

(** C5, as the code has it: restricting exactly one field never increases
    the number of surviving rows, where restricting a set field means
    adding elements to a set that was empty, or shrinking a set to a
    non-empty subset (restricting a range is narrowing its bounds, and
    restricting a boolean is switching it from false to true). *)
Theorem filter_data_monotone (D : DataFrame) (S S' : Filters) :
  restricts set_narrowed S S' →
  ∃ R R', filter_data (Some D) S = Some R
          ∧ filter_data (Some D) S' = Some R'
          ∧ R' `sublist_of` R
          ∧ (length R' ≤ length R)%nat.
Proof.
  intros HR. rewrite !filter_data_spec. eexists _, _.
  split; [done|]. split; [done|].
  assert (filter (λ r, row_matches S' r = true) D
          `sublist_of` filter (λ r, row_matches S r = true) D) as Hsub.
  { apply filter_weaken_sublist. intros r. by apply row_matches_restricts. }
  split; [done|]. by apply sublist_length.
Qed.

Lemma filter_data_monotone_witness :
  restricts set_narrowed initialize_filters only_severe
  ∧ ∃ R R', filter_data (Some [severe_row; minor_row]) initialize_filters = Some R
            ∧ filter_data (Some [severe_row; minor_row]) only_severe = Some R'
            ∧ R' `sublist_of` R
            ∧ (length R' ≤ length R)%nat.
Proof.
  assert (restricts set_narrowed initialize_filters only_severe) as HR.
  { apply (restricts_severity set_narrowed initialize_filters (Some ["Severe"%string])).
    by left. }
  split; [exact HR|].
  exact (filter_data_monotone [severe_row; minor_row] initialize_filters only_severe HR).
Defined.

(** C5 fails as stated: adding ["Minor"] to the severity set [{"Severe"}]
    lets a minor accident through, so the result grows from 0 rows to 1. *)
Lemma monotonicity_fails_when_adding_to_a_set :
  restricts elements_added only_severe severe_or_minor
  ∧ filter_data (Some [minor_row]) only_severe = Some []
  ∧ filter_data (Some [minor_row]) severe_or_minor = Some [minor_row].
Proof.
  split.
  - apply (restricts_severity elements_added only_severe
             (Some ["Severe"; "Minor"]%string)).
    exists ["Severe"%string], ["Severe"; "Minor"]%string. cbn.
    repeat split.
    + intros x Hx. apply list_elem_of_singleton in Hx as ->. left.
    + intros Hsub.
      assert ("Minor"%string ∈ ["Severe"%string]) as Hin
        by (apply Hsub; right; left).
      apply list_elem_of_singleton in Hin. discriminate.
  - by_evaluation.
Qed.

(** ** Purity of the filter engine *)

Module StoreFacts.
Import Store.

(** [reaches h0 D' c h]: run in [h], an extension of the initial heap
    [h0], the computation [c] returns an object that did not exist in
    [h0], holds [D'], and leaves every object of [h0] as it was. *)
Definition reaches (h0 : heap) (D' : DataFrame) (c : M nat) (h : heap) : Prop :=
  ∃ l' h', c h = Some (l', h') ∧ h0 ⊆ h' ∧ h0 !! l' = None ∧ h' !! l' = Some D'.

Lemma alloc_reaches h0 h D' :
  h0 ⊆ h → reaches h0 D' (alloc D') h.
Proof.
  intros Hsub. exists (fresh (dom h)), (<[fresh (dom h) := D']> h).
  assert (h !! fresh (dom h) = None) as Hfresh
    by (apply not_elem_of_dom, is_fresh).
  split; [done|]. split; [|split].
  - etrans; [exact Hsub|]. by apply insert_subseteq.
  - destruct (h0 !! fresh (dom h)) as [d|] eqn:E; [|done].
    eapply lookup_weaken in E; [|exact Hsub]. congruence.
  - apply lookup_insert_eq.
Qed.

Lemma copy_reaches h l D :
  h !! l = Some D → reaches h D (copy l) h.
Proof.
  intros Hl.
  destruct (alloc_reaches h h D) as (l' & h' & Hrun & Hrest); [done|].
  exists l', h'. unfold copy, bind, read. by rewrite Hl.
Qed.

Lemma getitem_reaches h0 h l D mask :
  h0 ⊆ h → h !! l = Some D →
  reaches h0 (getitem_mask D (mask D)) (getitem l mask) h.
Proof.
  intros Hsub Hl.
  destruct (alloc_reaches h0 h (getitem_mask D (mask D)))
    as (l' & h' & Hrun & Hrest); [done|].
  exists l', h'. unfold getitem, bind, read. by rewrite Hl.
Qed.

Lemma ret_reaches h0 h l D :
  h0 ⊆ h → h0 !! l = None → h !! l = Some D → reaches h0 D (ret l) h.
Proof. intros ???. by exists l, h. Qed.

(** Sequencing: the continuation runs on the object just produced. *)
Lemma bind_reaches {A : Type} h0 h D1 (c : M nat) (k : nat → M A) (Q : option (A * heap) → Prop) :
  reaches h0 D1 c h →
  (∀ l1 h1, h0 ⊆ h1 → h0 !! l1 = None → h1 !! l1 = Some D1 → Q (k l1 h1)) →
  Q (bind c k h).
Proof.
  intros (l1 & h1 & Hc & Hsub & Hnew & Hl1) Hk.
  unfold bind. rewrite Hc. by apply Hk.
Qed.

End StoreFacts.

(** C9: for every heap in which [df] refers to the table [D] and every
    filter specification, [filter_data] returns a reference to a new object
    and leaves every existing object, [D] included, unchanged; the new
    object holds the surviving rows in the relative order they have in
    [D]. *)
Theorem filter_data_pure (h : Store.heap) (df : nat) (D : DataFrame) (S : Filters) :
  h !! df = Some D →
  ∃ l' h' D',
    Store.filter_data (Some df) S h = Some (Some l', h')
    ∧ h' !! df = Some D
    ∧ h ⊆ h'
    ∧ h !! l' = None
    ∧ h' !! l' = Some D'
    ∧ filter_data (Some D) S = Some D'
    ∧ D' `sublist_of` D.
Proof.
  intros Hdf.
  set (Q := λ (o : option (option nat * Store.heap)),
         ∃ l' h', o = Some (Some l', h') ∧ h ⊆ h' ∧ h !! l' = None
                  ∧ Some (h' !! l') = Some (filter_data (Some D) S)).
  assert (Q (Store.filter_data (Some df) S h)) as (l' & h' & Hrun & Hsub & Hnew & Hres).
  { unfold Store.filter_data, filter_data.
    eapply StoreFacts.bind_reaches; [by apply StoreFacts.copy_reaches|].
    intros l1 h1 Hs1 Hn1 Hl1.
    eapply (StoreFacts.bind_reaches h _ (filter_severity S D)).
    { unfold filter_severity. destruct (truthy_list (severity S)).
      - by apply StoreFacts.getitem_reaches.
      - by apply StoreFacts.ret_reaches. }
    clear dependent l1 h1. intros l1 h1 Hs1 Hn1 Hl1.
    eapply (StoreFacts.bind_reaches h _ (filter_vehicles S _)).
    { unfold filter_vehicles. destruct (vehicles_range S) as [[??]|].
      - by apply StoreFacts.getitem_reaches.
      - by apply StoreFacts.ret_reaches. }
    clear dependent l1 h1. intros l1 h1 Hs1 Hn1 Hl1.
    eapply (StoreFacts.bind_reaches h _ (filter_pedestrians S _)).
    { unfold filter_pedestrians. destruct (truthy_bool (pedestrians S)).
      - by apply StoreFacts.getitem_reaches.
      - by apply StoreFacts.ret_reaches. }
    clear dependent l1 h1. intros l1 h1 Hs1 Hn1 Hl1.
    eapply (StoreFacts.bind_reaches h _ (filter_cyclists S _)).
    { unfold filter_cyclists. destruct (truthy_bool (cyclists S)).
      - by apply StoreFacts.getitem_reaches.
      - by apply StoreFacts.ret_reaches. }
    clear dependent l1 h1. intros l1 h1 Hs1 Hn1 Hl1.
    eapply (StoreFacts.bind_reaches h _ (filter_casualties S _)).
    { unfold filter_casualties. destruct (casualties_range S) as [[??]|].
      - by apply StoreFacts.getitem_reaches.
      - by apply StoreFacts.ret_reaches. }
    clear dependent l1 h1. intros l1 h1 Hs1 Hn1 Hl1.
    eapply (StoreFacts.bind_reaches h _ (filter_response_time S _)).
    { unfold filter_response_time. destruct (response_time_range S) as [[??]|].
      - by apply StoreFacts.getitem_reaches.
      - by apply StoreFacts.ret_reaches. }
    clear dependent l1 h1. intros l1 h1 Hs1 Hn1 Hl1.
    eapply (StoreFacts.bind_reaches h _ (filter_causes S _)).
    { unfold filter_causes. destruct (truthy_list (causes S)).
      - by apply StoreFacts.getitem_reaches.
      - by apply StoreFacts.ret_reaches. }
    clear dependent l1 h1. intros l1 h1 Hs1 Hn1 Hl1.
    exists l1, h1. unfold Store.ret. by rewrite Hl1. }
  injection Hres as Hres.
  change (h' !! l' = filter_data (Some D) S) in Hres.
  rewrite filter_data_spec in Hres |- *.
  exists l', h', (filter (λ r, row_matches S r = true) D).
  repeat split; try done.
  - by eapply lookup_weaken.
  - apply sublist_filter.
Qed.

Lemma filter_data_pure_witness :
  ({[ 0%nat := [severe_row; minor_row] ]} : Store.heap) !! 0%nat
    = Some [severe_row; minor_row]
  ∧ ∃ l' h' D',
      Store.filter_data (Some 0%nat) only_severe
        {[ 0%nat := [severe_row; minor_row] ]} = Some (Some l', h')
      ∧ h' !! 0%nat = Some [severe_row; minor_row]
      ∧ ({[ 0%nat := [severe_row; minor_row] ]} : Store.heap) ⊆ h'
      ∧ ({[ 0%nat := [severe_row; minor_row] ]} : Store.heap) !! l' = None
      ∧ h' !! l' = Some D'
      ∧ filter_data (Some [severe_row; minor_row]) only_severe = Some D'
      ∧ D' `sublist_of` [severe_row; minor_row].
Proof.
  split; [apply lookup_singleton_eq|].
  apply (filter_data_pure {[ 0%nat := [severe_row; minor_row] ]} 0%nat
           [severe_row; minor_row] only_severe).
  apply lookup_singleton_eq.
Defined.

(** ** Summary statistics *)

(** The scenario of the specification: two accidents, one fatality, three
    injuries, mean response time 10. *)
Example calculate_summary_stats_scenario :
  calculate_summary_stats (Some [severe_row; minor_row])
  = <["total_accidents" := Fin (Qc_of_Z 2)]>
    (<["total_fatalities" := Fin (Qc_of_Z 1)]>
    (<["total_injuries" := Fin (Qc_of_Z 3)]>
    (<["avg_response_time" := Fin (Qc_of_Z 10)]>
    (<["total_economic_loss" := Fin (Qc_of_Z 10000)]> ∅)))).
Proof. by_evaluation. Qed.

(** C4, as the code has it: for a non-empty table the result has the five
    keys and [total_accidents] is the number of rows; for an empty table,
    and for [None], the result is the empty dict, which carries no field at
    all; no case raises. *)
Theorem calculate_summary_stats_count :
  calculate_summary_stats (Some []) = ∅
  ∧ calculate_summary_stats None = ∅
  ∧ ∀ (r : row) (D : DataFrame),
      calculate_summary_stats (Some (r :: D)) !! "total_accidents"
      = Some (Fin (Qc_of_nat (length (r :: D))))
      ∧ dom (calculate_summary_stats (Some (r :: D))) = summary_keys.
Proof.
  split; [done|]. split; [done|]. intros r D. split.
  - unfold calculate_summary_stats. by rewrite lookup_insert_eq.
  - unfold calculate_summary_stats, summary_keys.
    rewrite !dom_insert_L, dom_empty_L. set_solver.
Qed.

(** C4 fails as stated: on the empty table the result has no count field
    (and no other field): every lookup in it is absent. *)
Lemma empty_table_has_no_summary_fields :
  calculate_summary_stats (Some []) !! "total_accidents" = None
  ∧ calculate_summary_stats (Some []) !! "total_accidents"
    ≠ Some (Fin (Qc_of_nat (length ([] : DataFrame))))
  ∧ dom (calculate_summary_stats (Some [])) = ∅.
Proof. split; [done|]. split; [done|]. apply dom_empty_L. Qed.

(** ** Rates *)

Lemma cell_div_zero_undefined x : is_undefined (cell_div x (Fin 0)) = true.
Proof.
  destruct x as [a| | |]; [|done..].
  unfold cell_div. rewrite bool_decide_eq_true_2 by done.
  by destruct (a ?= 0).
Qed.

Lemma is_undefined_not_zero x : is_undefined x = true → x ≠ Fin 0.
Proof. by destruct x. Qed.

Lemma fatality_rate_lookup r D i r' :
  (r :: D) !! i = Some r' →
  fatality_rate (calculate_rates (Some (r :: D))) !! i
  = Some (cell_div (Number_of_Fatalities r') (Number_of_Vehicles_Involved r')).
Proof.
  intros Hi. unfold calculate_rates, fatality_rate, series_div.
  by rewrite lookup_zip_with, !list_lookup_fmap, Hi.
Qed.

Lemma injury_rate_lookup r D i r' :
  (r :: D) !! i = Some r' →
  injury_rate (calculate_rates (Some (r :: D))) !! i
  = Some (cell_div (Number_of_Injuries r') (Number_of_Vehicles_Involved r')).
Proof.
  intros Hi. unfold calculate_rates, injury_rate, series_div.
  by rewrite lookup_zip_with, !list_lookup_fmap, Hi.
Qed.

Lemma severity_index_lookup r D i r' :
  (r :: D) !! i = Some r' →
  severity_index (calculate_rates (Some (r :: D))) !! i
  = Some (cell_div (severity_numerator r') (Fin (Qc_of_nat (length (r :: D))))).
Proof.
  intros Hi.
  unfold calculate_rates, severity_index, series_div_scalar, series_add,
    series_mul_scalar.
  by rewrite list_lookup_fmap, lookup_zip_with, !list_lookup_fmap, Hi.
Qed.

(** C6: in every (necessarily non-empty) table, at every row whose number
    of vehicles is 0, [fatality_rate] and [injury_rate] are computed without
    a fault and are one of the markers [inf], [-inf], [nan]: not a finite
    number, in particular not 0. *)
Theorem rates_undefined_without_vehicles (D : DataFrame) (i : nat) (r : row) :
  D !! i = Some r →
  Number_of_Vehicles_Involved r = Fin 0 →
  ∃ f_rate i_rate,
    fatality_rate (calculate_rates (Some D)) !! i = Some f_rate
    ∧ injury_rate (calculate_rates (Some D)) !! i = Some i_rate
    ∧ is_undefined f_rate = true ∧ is_undefined i_rate = true
    ∧ f_rate ≠ Fin 0 ∧ i_rate ≠ Fin 0.
Proof.
  intros Hi Hv. destruct D as [|r0 D]; [done|].
  eexists _, _. split; [by apply fatality_rate_lookup|].
  split; [by apply injury_rate_lookup|].
  rewrite Hv.
  auto 10 using cell_div_zero_undefined, is_undefined_not_zero.
Qed.

Lemma rates_undefined_without_vehicles_witness :
  [minor_row; no_vehicle_row] !! 1%nat = Some no_vehicle_row
  ∧ Number_of_Vehicles_Involved no_vehicle_row = Fin 0
  ∧ ∃ f_rate i_rate,
      fatality_rate (calculate_rates (Some [minor_row; no_vehicle_row])) !! 1%nat
        = Some f_rate
      ∧ injury_rate (calculate_rates (Some [minor_row; no_vehicle_row])) !! 1%nat
        = Some i_rate
      ∧ is_undefined f_rate = true ∧ is_undefined i_rate = true
      ∧ f_rate ≠ Fin 0 ∧ i_rate ≠ Fin 0.
Proof.
  assert (Number_of_Vehicles_Involved no_vehicle_row = Fin 0) as Hv
    by (by_evaluation).
  split; [reflexivity|]. split; [exact Hv|].
  exact (rates_undefined_without_vehicles [minor_row; no_vehicle_row] 1
           no_vehicle_row eq_refl Hv).
Defined.

(** ** Severity index *)

Lemma Qc_of_nat_pos n : (0 < n)%nat → Qc_of_nat n ≠ 0.
Proof.
  intros Hn. unfold Qc_of_nat. rewrite <-Z2Qc_inj_0, Z2Qc_inj_iff. lia.
Qed.

Lemma Qc_of_nat_inj n m : Qc_of_nat n = Qc_of_nat m → n = m.
Proof. unfold Qc_of_nat. rewrite Z2Qc_inj_iff. lia. Qed.

(** A non-zero number has different quotients by different divisors. *)
Lemma Qcdiv_inj_divisor (q a b : Qc) :
  q ≠ 0 → a ≠ 0 → b ≠ 0 → q / a = q / b → a = b.
Proof.
  intros Hq Ha Hb Heq.
  assert (q * b = q * a) as Hmul.
  { assert (q * b = a * (q / a) * b) as -> by (by rewrite Qcmult_div_r).
    rewrite Heq.
    replace (a * (q / b) * b) with (a * (b * (q / b))) by ring.
    rewrite Qcmult_div_r by done. ring. }
  rewrite <-(Qcmult_1_l a), <-(Qcmult_1_l b), <-(Qcmult_inv_l q) by done.
  rewrite <-!Qcmult_assoc. by rewrite Hmul.
Qed.

Lemma cell_div_size_inj q n m :
  q ≠ 0 → (0 < n)%nat → (0 < m)%nat →
  cell_div (Fin q) (Fin (Qc_of_nat n)) = cell_div (Fin q) (Fin (Qc_of_nat m)) →
  n = m.
Proof.
  intros Hq Hn Hm. unfold cell_div.
  rewrite !bool_decide_eq_false_2 by by apply Qc_of_nat_pos.
  intros Heq. apply Qc_of_nat_inj.
  apply (Qcdiv_inj_divisor q); [done|by apply Qc_of_nat_pos..|congruence].
Qed.

(** C7, as the code has it: at every row of a non-empty table,
    [severity_index] is [(fatalities*5 + injuries)] divided by the number
    of rows of the whole table; hence a row whose numerator is a non-zero
    number gets a different index in any table of a different size (a row
    whose numerator is 0 has index 0 at every size). *)
Theorem severity_index_dataset_wide (D : DataFrame) (i : nat) (r : row) :
  D !! i = Some r →
  severity_index (calculate_rates (Some D)) !! i
  = Some (cell_div (severity_numerator r) (Fin (Qc_of_nat (length D))))
  ∧ ∀ (q : Qc) (D' : DataFrame) (j : nat),
      severity_numerator r = Fin q → q ≠ 0 →
      D' !! j = Some r → length D' ≠ length D →
      severity_index (calculate_rates (Some D')) !! j
      ≠ severity_index (calculate_rates (Some D)) !! i.
Proof.
  intros Hi. destruct D as [|r0 D]; [done|].
  split; [by apply severity_index_lookup|].
  intros q D' j Hq Hq0 Hj Hlen.
  destruct D' as [|r0' D']; [done|].
  rewrite (severity_index_lookup _ _ _ _ Hi), (severity_index_lookup _ _ _ _ Hj), Hq.
  intros Heq. apply Hlen.
  apply (cell_div_size_inj q); [done|cbn; lia..|congruence].
Qed.

Lemma severity_index_dataset_wide_witness :
  [severe_row; minor_row] !! 0%nat = Some severe_row
  ∧ severity_index (calculate_rates (Some [severe_row; minor_row])) !! 0%nat
    = Some (cell_div (severity_numerator severe_row)
                     (Fin (Qc_of_nat (length [severe_row; minor_row]))))
  ∧ severity_index (calculate_rates (Some [severe_row])) !! 0%nat
    ≠ severity_index (calculate_rates (Some [severe_row; minor_row])) !! 0%nat.
Proof.
  destruct (severity_index_dataset_wide [severe_row; minor_row] 0 severe_row eq_refl)
    as [Hformula Hcoupled].
  split; [reflexivity|]. split; [exact Hformula|].
  apply (Hcoupled (Qc_of_Z 8) [severe_row] 0%nat).
  - by_evaluation.
  - by_evaluation.
  - reflexivity.
  - cbn. lia.
Defined.

(** C7 fails as stated in its last clause: a row without casualties has
    index 0 in a table of one row and in a table of two rows. *)
Lemma severity_index_of_zero_row_ignores_size :
  length [no_casualty_row] ≠ length [no_casualty_row; severe_row]
  ∧ severity_index (calculate_rates (Some [no_casualty_row])) !! 0%nat
    = Some (Fin 0)
  ∧ severity_index (calculate_rates (Some [no_casualty_row; severe_row])) !! 0%nat
    = Some (Fin 0).
Proof. by_evaluation. Qed.

(** ** Missing values *)

Lemma in_range_NaN lo hi : in_range NaN (Some (lo, hi)) = false.
Proof. done. Qed.

Lemma in_range_present v lo hi : in_range v (Some (lo, hi)) = true → v ≠ NaN.
Proof. intros H ->. by rewrite in_range_NaN in H. Qed.

Lemma filter_fmap {A B : Type} (f : A → B) (P : B → Prop)
    `{!∀ y, Decision (P y)} (l : list A) :
  filter P (f <$> l) = f <$> filter (λ x, P (f x)) l.
Proof.
  induction l as [|x l IH]; [done|].
  cbn [fmap list_fmap]. rewrite !filter_cons.
  destruct (decide (P (f x))); cbn [fmap list_fmap]; by rewrite IH.
Qed.

Lemma notna_true c : notna c = true ↔ c ≠ NaN.
Proof. by destruct c. Qed.

Lemma present_cells (col : row → cell) (D : DataFrame) :
  filter (λ c, notna c = true) (col <$> D) = col <$> rows_with col D.
Proof.
  rewrite filter_fmap. f_equal. apply list_filter_iff.
  intros r. apply notna_true.
Qed.

(** [sum()] adds up the cells of the rows that have a value. *)
Lemma series_sum_rows_with (col : row → cell) (D : DataFrame) :
  series_sum (col <$> D) = plain_sum (col <$> rows_with col D).
Proof. unfold series_sum, plain_sum. by rewrite present_cells. Qed.

Lemma series_count_rows_with (col : row → cell) (D : DataFrame) :
  series_count (col <$> D) = length (rows_with col D).
Proof. unfold series_count. by rewrite present_cells, length_fmap. Qed.

(** [mean()] divides that sum by the number of those rows. *)
Lemma series_mean_rows_with (col : row → cell) (D : DataFrame) :
  series_mean (col <$> D)
  = cell_div (plain_sum (col <$> rows_with col D))
             (Fin (Qc_of_nat (length (rows_with col D)))).
Proof.
  unfold series_mean. by rewrite series_sum_rows_with, series_count_rows_with.
Qed.

Lemma series_mean_all_missing (col : row → cell) (D : DataFrame) :
  rows_with col D = [] → series_mean (col <$> D) = NaN.
Proof. intros H. rewrite series_mean_rows_with, H. by_evaluation. Qed.

(** C8: with the casualties and response-time ranges set, a missing value
    never satisfies the range predicate, so no surviving row has a missing
    response time or a missing injuries + fatalities sum; and for a
    non-empty table the totals of the summary add up the rows that have a
    value, the mean response time is taken over the rows that have one, and
    it is NaN (not 0) when no row has one. *)
Theorem missing_values_propagate (D : DataFrame) (S : Filters)
    (lo_c hi_c lo_t hi_t : Qc) :
  casualties_range S = Some (lo_c, hi_c) →
  response_time_range S = Some (lo_t, hi_t) →
  in_range NaN (casualties_range S) = false
  ∧ in_range NaN (response_time_range S) = false
  ∧ (∃ R, filter_data (Some D) S = Some R
          ∧ Forall (λ r, Emergency_Response_Time r ≠ NaN
                         ∧ cell_add (Number_of_Injuries r) (Number_of_Fatalities r) ≠ NaN) R)
  ∧ (D ≠ [] →
     calculate_summary_stats (Some D) !! "total_fatalities"
       = Some (plain_sum (Number_of_Fatalities <$> rows_with Number_of_Fatalities D))
     ∧ calculate_summary_stats (Some D) !! "total_injuries"
       = Some (plain_sum (Number_of_Injuries <$> rows_with Number_of_Injuries D))
     ∧ calculate_summary_stats (Some D) !! "total_economic_loss"
       = Some (plain_sum (Economic_Loss <$> rows_with Economic_Loss D))
     ∧ calculate_summary_stats (Some D) !! "avg_response_time"
       = Some (cell_div
                 (plain_sum (Emergency_Response_Time
                               <$> rows_with Emergency_Response_Time D))
                 (Fin (Qc_of_nat (length (rows_with Emergency_Response_Time D)))))
     ∧ (rows_with Emergency_Response_Time D = [] →
        calculate_summary_stats (Some D) !! "avg_response_time" = Some NaN
        ∧ calculate_summary_stats (Some D) !! "avg_response_time" ≠ Some (Fin 0))).
Proof.
  intros Hc Ht. rewrite Hc, Ht. split; [done|]. split; [done|]. split.
  - rewrite filter_data_spec. eexists; split; [done|].
    apply Forall_forall. intros r Hr.
    apply list_elem_of_filter in Hr as [Hr _].
    unfold row_matches in Hr. rewrite !andb_true_iff, Hc, Ht in Hr.
    destruct Hr as [[[_ Hcas] Hrt] _].
    eauto using in_range_present.
  - intros HD. destruct D as [|r D]; [done|].
    unfold calculate_summary_stats.
    rewrite <-series_mean_rows_with, <-!series_sum_rows_with.
    assert (∀ (m : gmap string cell) a b c d e,
              m = <["total_accidents" := a]> (<["total_fatalities" := b]>
                  (<["total_injuries" := c]> (<["avg_response_time" := d]>
                  (<["total_economic_loss" := e]> ∅)))) →
              m !! "total_fatalities" = Some b ∧ m !! "total_injuries" = Some c
              ∧ m !! "total_economic_loss" = Some e
              ∧ m !! "avg_response_time" = Some d) as Hlookup.
    { intros m a b c d e ->. by simplify_map_eq. }
    edestruct Hlookup as (-> & -> & -> & ->); [reflexivity|].
    split; [done|]. split; [done|]. split; [done|]. split; [done|].
    intros Hall. by rewrite series_mean_all_missing.
Qed.

Lemma missing_values_propagate_witness :
  casualties_range initialize_filters = Some (Qc_of_Z 0, Qc_of_Z 23)
  ∧ response_time_range initialize_filters = Some (Qc_of_Z 5, Qc_of_Z 60)
  ∧ [no_response_time_row] ≠ []
  ∧ rows_with Emergency_Response_Time [no_response_time_row] = []
  ∧ (∃ R, filter_data (Some [no_response_time_row]) initialize_filters = Some R
          ∧ Forall (λ r, Emergency_Response_Time r ≠ NaN
                         ∧ cell_add (Number_of_Injuries r) (Number_of_Fatalities r) ≠ NaN) R)
  ∧ calculate_summary_stats (Some [no_response_time_row]) !! "avg_response_time"
    = Some NaN.
Proof.
  destruct (missing_values_propagate [no_response_time_row] initialize_filters
              (Qc_of_Z 0) (Qc_of_Z 23) (Qc_of_Z 5) (Qc_of_Z 60) eq_refl eq_refl)
    as (_ & _ & Hfilter & Hstats).
  assert ([no_response_time_row] ≠ []) as Hne by discriminate.
  assert (rows_with Emergency_Response_Time [no_response_time_row] = []) as Hall
    by reflexivity.
  destruct (Hstats Hne) as (_ & _ & _ & _ & Hmean).
  destruct (Hmean Hall) as [Hnan _].
  repeat split; assumption || reflexivity.
Defined.

(** ** The loader *)

Lemma month_map_unknown m : m ∉ canonical_months → month_map !! m = None.
Proof. apply not_elem_of_list_to_map_1. Qed.

Lemma month_map_known m : m ∈ canonical_months → is_Some (month_map !! m).
Proof.
  intros Hm. apply not_eq_None_Some. intros Hnone.
  by apply (not_elem_of_list_to_map_2 month_names) in Hnone.
Qed.

Lemma string_app_assoc (a b c : string) : (a +:+ b) +:+ c = a +:+ (b +:+ c).
Proof.
  induction a as [|x a IH]; [done|].
  change (String x ((a +:+ b) +:+ c) = String x (a +:+ (b +:+ c))).
  by rewrite IH.
Qed.

(** A column with an unmapped month is a float column. *)
Lemma months_not_all_mapped months i :
  months !! i = Some None →
  forallb (λ m : option Z, bool_decide (is_Some m)) months = false.
Proof.
  intros Hi. apply not_true_is_false. intros Hall.
  rewrite forallb_forall in Hall.
  assert (bool_decide (is_Some (None : option Z)) = true) as Hnone.
  { apply Hall. apply list_elem_of_In. by eapply list_elem_of_lookup_2. }
  rewrite bool_decide_eq_true in Hnone. by destruct Hnone as [? [=]].
Qed.

Lemma months_astype_str_unmapped mode months i :
  months !! i = Some None →
  months_astype_str mode months !! i
  = Some (match mode with
          | MissingAsText => Some "nan"%string
          | MissingKept => None
          end).
Proof.
  intros Hi. unfold months_astype_str.
  rewrite (months_not_all_mapped months i Hi).
  by rewrite list_lookup_fmap, Hi.
Qed.

Lemma months_astype_str_float mode months i j k :
  months !! i = Some None → months !! j = Some (Some k) →
  months_astype_str mode months !! j = Some (Some (pretty k +:+ ".0")%string).
Proof.
  intros Hi Hj. unfold months_astype_str.
  rewrite (months_not_all_mapped months i Hi).
  by rewrite list_lookup_fmap, Hj.
Qed.

Lemma months_astype_str_all_unmapped months :
  Forall (λ m, m = None) months →
  months_astype_str MissingKept months = (λ _, None) <$> months.
Proof.
  intros Hall. unfold months_astype_str.
  destruct (forallb _ months); apply list_fmap_ext; intros i m Hm;
    rewrite Forall_forall in Hall;
    by rewrite (Hall m (list_elem_of_lookup_2 _ _ _ Hm)).
Qed.

(** The date string of a row whose month is not in [month_map]. *)
Lemma date_strings_unknown_month mode df i r :
  df !! i = Some r → csv_Month r ∉ canonical_months →
  date_strings mode df !! i
  = Some (match mode with
          | MissingAsText => Some (pretty (csv_Year r) +:+ "-nan-01")%string
          | MissingKept => None
          end).
Proof.
  intros Hi Hm. unfold date_strings.
  rewrite lookup_zip_with, list_lookup_fmap, Hi.
  rewrite (months_astype_str_unmapped mode _ i); [by destruct mode|].
  rewrite list_lookup_fmap, Hi. cbn [fmap option_fmap option_map].
  by rewrite (month_map_unknown _ Hm).
Qed.

(** The numbers of [month_map] are 1 to 12. *)
Lemma month_map_range m k : month_map !! m = Some k → (1 ≤ k ≤ 12)%Z.
Proof.
  intros Hk. apply elem_of_list_to_map_2 in Hk. unfold month_names in Hk.
  repeat (apply elem_of_cons in Hk as [[= _ ->]|Hk]; [lia|]).
  by apply elem_of_nil in Hk.
Qed.

(** The date string of a row with a canonical month in a float column. *)
Lemma date_strings_float_month mode df i r j r' :
  df !! i = Some r → csv_Month r ∉ canonical_months →
  df !! j = Some r' → csv_Month r' ∈ canonical_months →
  ∃ k : Z, (1 ≤ k ≤ 12)%Z
    ∧ date_strings mode df !! j
      = Some (Some (pretty (csv_Year r') +:+ "-" +:+ pretty k +:+ ".0-01")%string).
Proof.
  intros Hi Hm Hj Hm'.
  destruct (month_map_known _ Hm') as [k Hk].
  exists k. split; [by eapply month_map_range|].
  unfold date_strings.
  rewrite lookup_zip_with, list_lookup_fmap, Hj.
  rewrite (months_astype_str_float mode _ i j k).
  - cbn [mbind option_bind fmap option_fmap option_map]. do 4 f_equal.
    by rewrite string_app_assoc.
  - rewrite list_lookup_fmap, Hi. cbn [fmap option_fmap option_map].
    by rewrite (month_map_unknown _ Hm).
  - rewrite list_lookup_fmap, Hj. cbn [fmap option_fmap option_map].
    by rewrite Hk.
Qed.

Lemma date_strings_all_unknown df :
  (∀ r, r ∈ df → csv_Month r ∉ canonical_months) →
  date_strings MissingKept df = (λ _, None) <$> df.
Proof.
  intros Hall. unfold date_strings.
  rewrite months_astype_str_all_unmapped.
  - rewrite <-list_fmap_compose. by rewrite zip_with_fmap_same.
  - apply Forall_fmap, Forall_forall. intros r Hr. cbn.
    by apply month_map_unknown, Hall.
Qed.

Lemma has_columns_load_columns df :
  has_columns load_columns df
  = has_columns numeric_columns df && has_columns ["Year"; "Month"]%string df.
Proof. unfold has_columns, load_columns. apply forallb_app. Qed.

Section LoaderFacts.

Variable parse_datetime : string → option date.

(** The parser rejects the date string of a year whose month field is
    ["nan"], and one whose month field is a float, ["1.0"] to ["12.0"]. *)
Hypothesis parse_nan_month :
  ∀ y : Z, parse_datetime (pretty y +:+ "-nan-01") = None.
Hypothesis parse_float_month :
  ∀ y k : Z, (1 ≤ k ≤ 12)%Z →
    parse_datetime (pretty y +:+ "-" +:+ pretty k +:+ ".0-01") = None.

Lemma to_datetime_fails strings i s :
  strings !! i = Some (Some s) → parse_datetime s = None →
  to_datetime parse_datetime strings = None.
Proof.
  intros Hi Hs. apply mapM_None_2, Exists_exists.
  exists (Some s). split; [by eapply list_elem_of_lookup_2|]. by rewrite Hs.
Qed.

Lemma to_datetime_all_missing {A : Type} (l : list A) :
  to_datetime parse_datetime ((λ _, None) <$> l) = Some ((λ _, NaT) <$> l).
Proof.
  apply mapM_Some_2. induction l as [|x l IH]; constructor; done.
Qed.

(** C3, as the code has it: when the file is read and at least one row has
    a Month that is not one of the twelve canonical names, the outcome
    depends on what [astype(str)] makes of the unmapped month.  Where it
    prints the text ["nan"] (pandas before 3), the date conversion raises
    and [load_data] returns [None].  Where it keeps the value missing
    (pandas 3), [load_data] still returns [None] as soon as one row has a
    canonical month, whose number then prints as a float; only when no row
    has a canonical month does the load succeed, and then every row is
    retained, in order, with the date [NaT]. *)
Theorem load_data_unknown_month (df : csv_frame) (r : csv_row) :
  r ∈ csv_rows df → csv_Month r ∉ canonical_months →
  load_data parse_datetime MissingAsText (Some df) = None
  ∧ ((∃ r', r' ∈ csv_rows df ∧ csv_Month r' ∈ canonical_months) →
     load_data parse_datetime MissingKept (Some df) = None)
  ∧ (has_columns load_columns df = true →
     (∀ r', r' ∈ csv_rows df → csv_Month r' ∉ canonical_months) →
     load_data parse_datetime MissingKept (Some df)
     = Some ((λ r', (coerce_row r', NaT)) <$> csv_rows df)).
Proof.
  intros Hr Hm. apply list_elem_of_lookup in Hr as [i Hi].
  unfold load_data. split; [|split].
  - destruct (has_columns numeric_columns df); [|done].
    destruct (has_columns _ df); [|done]. cbn [negb].
    by rewrite (to_datetime_fails _ i (pretty (csv_Year r) +:+ "-nan-01")%string)
      by (done || by apply (date_strings_unknown_month MissingAsText)).
  - intros (r' & [j Hj]%list_elem_of_lookup & Hm').
    destruct (has_columns numeric_columns df); [|done].
    destruct (has_columns _ df); [|done]. cbn [negb].
    destruct (date_strings_float_month MissingKept _ i r j r' Hi Hm Hj Hm')
      as (k & Hk & Hy).
    by rewrite (to_datetime_fails _ j _ Hy) by (by apply parse_float_month).
  - intros Hcols Hall. rewrite has_columns_load_columns in Hcols.
    apply andb_true_iff in Hcols as [-> ->]. cbn [negb].
    rewrite (date_strings_all_unknown _ Hall), to_datetime_all_missing.
    by rewrite zip_with_fmap_r, zip_with_diag.
Qed.

End LoaderFacts.

(** The concrete parser rejects a month field ["nan"] or ["1.0"]. *)

Lemma list_ascii_of_string_app (a b : string) :
  list_ascii_of_string (a +:+ b)
  = list_ascii_of_string a ++ list_ascii_of_string b.
Proof.
  induction a as [|c a IH]; [done|].
  change (c :: list_ascii_of_string (a +:+ b)
          = c :: (list_ascii_of_string a ++ list_ascii_of_string b)).
  by rewrite IH.
Qed.

(** A token that ends in characters of which the first is no digit. *)
Lemma digits_from_bad_suffix acc l a k :
  digit_of a = None → digits_from acc (l ++ a :: k) = None.
Proof.
  intros Ha. revert acc. induction l as [|b l IH]; intros acc; cbn.
  - by rewrite Ha.
  - destruct (digit_of b); [apply IH|done].
Qed.

Lemma parse_digits_bad_suffix l a k :
  digit_of a = None → parse_digits (l ++ a :: k) = None.
Proof.
  intros Ha. unfold parse_digits.
  destruct (l ++ a :: k) eqn:E; [by destruct l|].
  rewrite <-E. by apply digits_from_bad_suffix.
Qed.

(** Splitting [l ++ k] at the first dash: inside [l] if it has one. *)
Lemma split_dash_app l k :
  split_dash (l ++ k)
  = match split_dash l with
    | (tok, Some rest) => (tok, Some (rest ++ k))
    | (tok, None) => (tok ++ (split_dash k).1, (split_dash k).2)
    end.
Proof.
  induction l as [|a l IH]; cbn.
  - by destruct (split_dash k).
  - destruct (bool_decide (a = "-"%char)); [done|].
    rewrite IH. by destruct (split_dash l) as [tok [rest|]].
Qed.

Lemma split_dash_nan_suffix :
  split_dash (list_ascii_of_string "-nan-01")
  = ([], Some (list_ascii_of_string "nan-01")).
Proof. by vm_compute. Qed.

Lemma split_dash_nan_field :
  split_dash (list_ascii_of_string "nan-01")
  = (list_ascii_of_string "nan", Some (list_ascii_of_string "01")).
Proof. by vm_compute. Qed.

Lemma split_dash_float_suffix :
  split_dash (list_ascii_of_string ".0-01")
  = (list_ascii_of_string ".0", Some (list_ascii_of_string "01")).
Proof. by vm_compute. Qed.

Lemma split_dash_day : split_dash (list_ascii_of_string "01")
  = (list_ascii_of_string "01", None).
Proof. by vm_compute. Qed.

Lemma parse_digits_nan : parse_digits (list_ascii_of_string "nan") = None.
Proof. by vm_compute. Qed.

Lemma parse_digits_nan_day : parse_digits (list_ascii_of_string "nan-01") = None.
Proof. by vm_compute. Qed.

Lemma parse_digits_nan_suffix l :
  parse_digits (l ++ list_ascii_of_string "-nan-01") = None.
Proof. exact (parse_digits_bad_suffix l "-"%char _ eq_refl). Qed.

Lemma parse_digits_float_suffix l :
  parse_digits (l ++ list_ascii_of_string ".0-01") = None.
Proof. exact (parse_digits_bad_suffix l "."%char _ eq_refl). Qed.

Lemma parse_digits_float_field l :
  parse_digits (l ++ list_ascii_of_string ".0") = None.
Proof. exact (parse_digits_bad_suffix l "."%char _ eq_refl). Qed.

Lemma parse_ymd_nan_month (y : string) : parse_ymd (y +:+ "-nan-01") = None.
Proof.
  unfold parse_ymd. rewrite list_ascii_of_string_app, split_dash_app.
  destruct (split_dash (list_ascii_of_string y)) as [tok [rest|]].
  - rewrite split_dash_app.
    destruct (split_dash rest) as [tok' [rest'|]].
    + rewrite parse_digits_nan_suffix.
      by destruct (parse_digits tok), (parse_digits tok').
    + rewrite split_dash_nan_suffix. cbn [fst snd].
      rewrite parse_digits_nan_day.
      by destruct (parse_digits tok), (parse_digits (tok' ++ [])).
  - rewrite split_dash_nan_suffix. cbn [fst snd].
    rewrite split_dash_nan_field, parse_digits_nan.
    by destruct (parse_digits (tok ++ [])).
Qed.

Lemma parse_ymd_float_month (y : string) : parse_ymd (y +:+ ".0-01") = None.
Proof.
  unfold parse_ymd. rewrite list_ascii_of_string_app, split_dash_app.
  destruct (split_dash (list_ascii_of_string y)) as [tok [rest|]].
  - rewrite split_dash_app.
    destruct (split_dash rest) as [tok' [rest'|]].
    + rewrite parse_digits_float_suffix.
      by destruct (parse_digits tok), (parse_digits tok').
    + rewrite split_dash_float_suffix. cbn [fst snd].
      rewrite parse_digits_float_field.
      by destruct (parse_digits tok).
  - rewrite split_dash_float_suffix. cbn [fst snd].
    by rewrite split_dash_day.
Qed.

Lemma parse_ymd_nan_year (y : Z) : parse_ymd (pretty y +:+ "-nan-01") = None.
Proof. apply parse_ymd_nan_month. Qed.

Lemma parse_ymd_float_year (y k : Z) :
  (1 ≤ k ≤ 12)%Z → parse_ymd (pretty y +:+ "-" +:+ pretty k +:+ ".0-01") = None.
Proof.
  intros _. rewrite <-!string_app_assoc. apply parse_ymd_float_month.
Qed.

Lemma load_data_unknown_month_witness :
  (∀ y : Z, parse_ymd (pretty y +:+ "-nan-01") = None)
  ∧ (∀ y k : Z, (1 ≤ k ≤ 12)%Z →
       parse_ymd (pretty y +:+ "-" +:+ pretty k +:+ ".0-01") = None)
  ∧ (example_csv_row 2024 "Febuary"
       ∈ csv_rows (full_frame [example_csv_row 2024 "January";
                               example_csv_row 2024 "Febuary"]))
  ∧ (csv_Month (example_csv_row 2024 "Febuary") ∉ canonical_months)
  ∧ load_data parse_ymd MissingAsText
      (Some (full_frame [example_csv_row 2024 "January";
                         example_csv_row 2024 "Febuary"])) = None
  ∧ load_data parse_ymd MissingKept
      (Some (full_frame [example_csv_row 2024 "January";
                         example_csv_row 2024 "Febuary"])) = None.
Proof.
  assert (csv_Month (example_csv_row 2024 "Febuary") ∉ canonical_months) as Hm
    by (by_evaluation).
  assert (example_csv_row 2024 "Febuary"
            ∈ csv_rows (full_frame [example_csv_row 2024 "January";
                                    example_csv_row 2024 "Febuary"])) as Hr
    by (right; left).
  destruct (load_data_unknown_month parse_ymd parse_ymd_nan_year
              parse_ymd_float_year _ _ Hr Hm) as (Htext & Hkept & _).
  split; [exact parse_ymd_nan_year|]. split; [exact parse_ymd_float_year|].
  split; [exact Hr|]. split; [exact Hm|]. split; [exact Htext|].
  apply Hkept. exists (example_csv_row 2024 "January").
  split; [left|by_evaluation].
Defined.

(** With canonical months only, the same parser loads every row. *)
Example load_data_canonical_months (mode : astype_str_missing) :
  load_data parse_ymd mode
    (Some (full_frame [example_csv_row 2024 "January";
                       example_csv_row 2023 "December"]))
  = Some [(coerce_row (example_csv_row 2024 "January"),
           Timestamp {| year := 2024; month := 1 |});
          (coerce_row (example_csv_row 2023 "December"),
           Timestamp {| year := 2023; month := 12 |})].
Proof. destruct mode; by_evaluation. Qed.

(** Where a missing month stays missing, a table without any canonical
    month loads, each row with the date [NaT]. *)
Example load_data_lowercase_month_kept :
  load_data parse_ymd MissingKept
    (Some (full_frame [example_csv_row 2024 "january"]))
  = Some [(coerce_row (example_csv_row 2024 "january"), NaT)].
Proof. by_evaluation. Qed.

(** C3 fails as stated: a table with one month spelled in lower case beside
    a canonical month makes the whole load fail, whatever [astype(str)]
    does with the unmapped month; and where it prints ["nan"], the
    lower-case row alone makes the load fail.  No table is returned, so no
    row is retained. *)
Lemma lowercase_month_fails_the_load :
  (csv_Month (example_csv_row 2024 "january") ∉ canonical_months)
  ∧ load_data parse_ymd MissingAsText
      (Some (full_frame [example_csv_row 2024 "January";
                         example_csv_row 2024 "january"])) = None
  ∧ load_data parse_ymd MissingKept
      (Some (full_frame [example_csv_row 2024 "January";
                         example_csv_row 2024 "january"])) = None
  ∧ load_data parse_ymd MissingAsText
      (Some (full_frame [example_csv_row 2024 "january"])) = None.
Proof. by_evaluation. Qed.

(** ** Period over period *)

Lemma cell_mul_100_undefined x :
  is_undefined x = true → is_undefined (cell_mul x (Fin (Qc_of_Z 100))) = true.
Proof. by destruct x. Qed.

(** The unguarded percent change over a zero previous value is a marker. *)
Lemma pct_change_zero_previous current :
  is_undefined (pct_change current (Fin 0)) = true.
Proof. apply cell_mul_100_undefined, cell_div_zero_undefined. Qed.

(** The guarded expression returns the number 0 instead. *)
Lemma variation_zero_previous current : Temporal.variation current (Fin 0) = Fin 0.
Proof.
  unfold Temporal.variation, cell_gt, cell_lt.
  by rewrite bool_decide_eq_false_2 by apply (irreflexivity Qclt).
Qed.

Lemma variation_accidents_total df : is_Some (Temporal.variation_accidents df).
Proof.
  unfold Temporal.variation_accidents, py_truediv.
  case_bool_decide as Hpos; [|done].
  rewrite bool_decide_eq_false_2 by lia. done.
Qed.

(** C1, as the code has it: when the previous-period aggregate is 0, no
    variation raises; the temporal page, whose expressions are guarded by
    [previous > 0], shows the number 0; the financial page, whose
    expressions are not guarded, shows one of the markers [inf], [-inf],
    [nan], never a finite number. *)
Theorem period_over_period_zero_previous (filtered_df : DataFrame) :
  is_Some (Temporal.variation_accidents filtered_df)
  ∧ (length (Temporal.previous_data filtered_df) = 0%nat →
     Temporal.variation_accidents filtered_df = Some (Fin 0))
  ∧ (series_sum (Number_of_Fatalities <$> Temporal.previous_data filtered_df) = Fin 0 →
     Temporal.variation_fatalities filtered_df = Fin 0)
  ∧ (series_sum (Number_of_Injuries <$> Temporal.previous_data filtered_df) = Fin 0 →
     Temporal.variation_injuries filtered_df = Fin 0)
  ∧ (∀ col : row → cell,
       series_sum (col <$> Financial.previous_df filtered_df) = Fin 0 →
       is_undefined (Financial.variation_total col filtered_df) = true
       ∧ Financial.variation_total col filtered_df ≠ Fin 0)
  ∧ (Financial.prev_avg filtered_df = Fin 0 →
     is_undefined (Financial.variation_avg_cost filtered_df) = true
     ∧ Financial.variation_avg_cost filtered_df ≠ Fin 0).
Proof.
  split; [apply variation_accidents_total|].
  split; [|split; [|split; [|split]]].
  - intros Hlen. unfold Temporal.variation_accidents. rewrite Hlen.
    by rewrite bool_decide_eq_false_2 by lia.
  - intros Hprev. unfold Temporal.variation_fatalities.
    rewrite Hprev. apply variation_zero_previous.
  - intros Hprev. unfold Temporal.variation_injuries.
    rewrite Hprev. apply variation_zero_previous.
  - intros col Hprev. unfold Financial.variation_total. rewrite Hprev.
    auto using pct_change_zero_previous, is_undefined_not_zero.
  - intros Hprev. unfold Financial.variation_avg_cost. rewrite Hprev.
    auto using pct_change_zero_previous, is_undefined_not_zero.
Qed.

Lemma period_over_period_zero_previous_witness :
  length (Temporal.previous_data single_period_table) = 0%nat
  ∧ series_sum (Number_of_Fatalities <$> Temporal.previous_data single_period_table)
    = Fin 0
  ∧ series_sum (Medical_Cost <$> Financial.previous_df single_period_table) = Fin 0
  ∧ Temporal.variation_accidents single_period_table = Some (Fin 0)
  ∧ Temporal.variation_fatalities single_period_table = Fin 0
  ∧ is_undefined (Financial.variation_medical_cost single_period_table) = true.
Proof.
  destruct (period_over_period_zero_previous single_period_table)
    as (_ & Hacc & Hfat & _ & Hfin & _).
  assert (length (Temporal.previous_data single_period_table) = 0%nat) as H1
    by reflexivity.
  assert (series_sum (Number_of_Fatalities
                        <$> Temporal.previous_data single_period_table) = Fin 0) as H2
    by reflexivity.
  assert (series_sum (Medical_Cost <$> Financial.previous_df single_period_table)
          = Fin 0) as H3
    by reflexivity.
  split; [exact H1|]. split; [exact H2|]. split; [exact H3|].
  split; [exact (Hacc H1)|]. split; [exact (Hfat H2)|].
  exact (proj1 (Hfin Medical_Cost H3)).
Defined.

(** C1 fails as stated: on the temporal page, with no fatality in the
    previous year (here: no previous year at all), the variation is the
    number 0, not a marker; and the guarded expression maps current = 0,
    previous = 0 to 0. *)
Lemma temporal_variation_is_zero_without_previous :
  series_sum (Number_of_Fatalities <$> Temporal.previous_data single_period_table)
    = Fin 0
  ∧ Temporal.variation_fatalities single_period_table = Fin 0
  ∧ is_undefined (Temporal.variation_fatalities single_period_table) = false
  ∧ Temporal.variation (Fin 0) (Fin 0) = Fin 0.
Proof. by_evaluation. Qed.

(** * Further properties of the engine *)

(** ** The filter engine, row by row *)

(** X1: for a filters dict whose values have the types the widgets produce
    (lists of labels, pairs of numbers, booleans), the seven masks applied
    in sequence amount to one row-wise test: the result is the table with
    exactly the rows (each occurrence of them) that satisfy all seven
    predicates, in their original order. *)
Theorem filter_data_rowwise (D : DataFrame) (S : Filters) :
  filter_data (Some D) S
  = Some (filter
            (λ r, in_values (Accident_Severity r) (severity S) = true
                  ∧ in_range (Number_of_Vehicles_Involved r) (vehicles_range S) = true
                  ∧ involved (Pedestrians_Involved r) (pedestrians S) = true
                  ∧ involved (Cyclists_Involved r) (cyclists S) = true
                  ∧ in_range (cell_add (Number_of_Injuries r) (Number_of_Fatalities r))
                             (casualties_range S) = true
                  ∧ in_range (Emergency_Response_Time r) (response_time_range S) = true
                  ∧ in_values (Accident_Cause r) (causes S) = true) D).
Proof.
  rewrite filter_data_spec. f_equal. apply list_filter_iff. intros r.
  unfold row_matches. rewrite !andb_true_iff. tauto.
Qed.

(** X2: filtering twice with the same specification is filtering once. *)
Theorem filter_data_idempotent (df : option DataFrame) (S : Filters) :
  filter_data (filter_data df S) S = filter_data df S.
Proof.
  destruct df as [D|]; [|done].
  rewrite !filter_data_spec. f_equal.
  rewrite list_filter_filter. apply list_filter_iff. tauto.
Qed.

(** X3: two specifications can be applied in either order. *)
Theorem filter_data_commute (df : option DataFrame) (S1 S2 : Filters) :
  filter_data (filter_data df S1) S2 = filter_data (filter_data df S2) S1.
Proof.
  destruct df as [D|]; [|done].
  rewrite !filter_data_spec. f_equal.
  rewrite !list_filter_filter. apply list_filter_iff. tauto.
Qed.

(** X4: the engine works row by row: filtering two tables put end to end
    gives the two filtered tables put end to end. *)
Theorem filter_data_app (D1 D2 : DataFrame) (S : Filters) :
  ∃ R1 R2, filter_data (Some D1) S = Some R1
           ∧ filter_data (Some D2) S = Some R2
           ∧ filter_data (Some (D1 ++ D2)) S = Some (R1 ++ R2).
Proof.
  rewrite !filter_data_spec. eexists _, _.
  split; [done|]. split; [done|]. by rewrite filter_app.
Qed.

Lemma row_matches_unconstrained S r : unconstrained S → row_matches S r = true.
Proof.
  intros (Hsev & Hveh & Hped & Hcyc & Hcas & Hrt & Hcau).
  unfold row_matches, in_values, involved.
  by rewrite Hsev, Hveh, Hped, Hcyc, Hcas, Hrt, Hcau.
Qed.

(** X5: a specification whose keys are all absent, empty or [False] (the
    empty dict in particular) returns every row, also rows with missing
    values. *)
Theorem filter_data_unconstrained (D : DataFrame) (S : Filters) :
  unconstrained S → filter_data (Some D) S = Some D.
Proof.
  intros HS. rewrite filter_data_spec. f_equal.
  apply filter_True_id. intros r. by apply row_matches_unconstrained.
Qed.

Lemma filter_data_unconstrained_witness :
  unconstrained empty_filters
  ∧ filter_data (Some [severe_row; no_response_time_row]) empty_filters
    = Some [severe_row; no_response_time_row].
Proof.
  assert (unconstrained empty_filters) as HS by (by repeat split).
  split; [exact HS|].
  exact (filter_data_unconstrained [severe_row; no_response_time_row]
           empty_filters HS).
Defined.

(** ** Active filters *)

Section ActiveFiltersFacts.

Variable str : Qc → string.

Lemma get_active_filters_present S :
  is_Some (get_active_filters str S)
  ↔ is_Some (severity S) ∧ is_Some (vehicles_range S) ∧ is_Some (pedestrians S)
    ∧ is_Some (cyclists S) ∧ is_Some (casualties_range S)
    ∧ is_Some (response_time_range S) ∧ is_Some (causes S).
Proof.
  destruct S as [[sev|] [veh|] [ped|] [cyc|] [cas|] [rt|] [cau|]];
    unfold get_active_filters; cbn;
    (split; [intros H|intros (H1 & H2 & H3 & H4 & H5 & H6 & H7)]);
    try (by repeat split; eauto);
    try (by destruct H as [? [=]]);
    repeat match goal with
           | H : is_Some None |- _ => by destruct H as [? [=]]
           end.
Qed.

Lemma get_active_filters_nil S :
  get_active_filters str S = Some [] ↔ S = initialize_filters.
Proof.
  split.
  - destruct S as [[sev|] [veh|] [ped|] [cyc|] [cas|] [rt|] [cau|]];
      unfold get_active_filters; cbn; try discriminate.
    repeat case_bool_decide; destruct ped, cyc; cbn; try discriminate.
    intros _. unfold initialize_filters.
    repeat match goal with
           | H : ¬ (_ ≠ _) |- _ => apply dec_stable in H
           end.
    by subst.
  - intros ->. unfold get_active_filters. cbn.
    by rewrite !bool_decide_eq_false_2 by (by intros []).
Qed.

(** X6: the summary of active filters is empty exactly when the dict holds
    the start-up values; the engine then still applies the three slider
    ranges, keeping the rows inside the slider bounds. *)
Theorem get_active_filters_empty (S : Filters) (D : DataFrame) :
  (get_active_filters str S = Some [] ↔ S = initialize_filters)
  ∧ (get_active_filters str S = Some [] →
     filter_data (Some D) S
     = Some (filter (λ r, within_slider_bounds r = true) D)).
Proof.
  split; [apply get_active_filters_nil|].
  intros ->%get_active_filters_nil. rewrite filter_data_spec. f_equal.
  apply list_filter_iff. intros r. by rewrite row_matches_initialize_filters.
Qed.

(** X8: the items of the summary carry distinct keys, taken from the seven
    labels in their fixed order. *)
Theorem get_active_filters_keys (S : Filters) (a : list (string * active_value)) :
  get_active_filters str S = Some a →
  a.*1 `sublist_of` active_keys ∧ NoDup a.*1 ∧ (length a ≤ 7)%nat.
Proof.
  intros Ha.
  assert (a.*1 `sublist_of` active_keys) as Hsub.
  { destruct S as [[sev|] [veh|] [ped|] [cyc|] [cas|] [rt|] [cau|]];
      unfold get_active_filters in Ha; cbn in Ha; try discriminate.
    injection Ha as <-. unfold active_keys.
    repeat case_bool_decide; destruct ped, cyc; cbn;
      repeat first [apply sublist_nil | apply sublist_skip | apply sublist_cons]. }
  split; [done|]. split.
  - eapply sublist_NoDup; [|exact Hsub]. unfold active_keys.
    by_evaluation.
  - apply sublist_length in Hsub. by rewrite length_fmap in Hsub.
Qed.

End ActiveFiltersFacts.

Lemma get_active_filters_empty_witness :
  get_active_filters str_int initialize_filters = Some []
  ∧ filter_data (Some [severe_row; no_response_time_row]) initialize_filters
    = Some (filter (λ r, within_slider_bounds r = true)
              [severe_row; no_response_time_row]).
Proof.
  assert (get_active_filters str_int initialize_filters = Some []) as Hnil
    by (by_evaluation).
  split; [exact Hnil|].
  exact (proj2 (get_active_filters_empty str_int initialize_filters
                  [severe_row; no_response_time_row]) Hnil).
Defined.

Lemma get_active_filters_keys_witness :
  get_active_filters str_int only_severe
    = Some [("Sévérité"%string, ActiveList ["Severe"%string])]
  ∧ [("Sévérité"%string, ActiveList ["Severe"%string])].*1 `sublist_of` active_keys
  ∧ NoDup [("Sévérité"%string, ActiveList ["Severe"%string])].*1
  ∧ (length [("Sévérité"%string, ActiveList ["Severe"%string])] ≤ 7)%nat.
Proof.
  assert (get_active_filters str_int only_severe
          = Some [("Sévérité"%string, ActiveList ["Severe"%string])]) as Hget
    by (by_evaluation).
  split; [exact Hget|].
  exact (get_active_filters_keys str_int only_severe _ Hget).
Defined.

(** X9: [display_active_filters] writes nothing exactly when the dict holds
    the start-up values; otherwise it writes a rule, the heading and one
    line per active filter; it raises exactly when [get_active_filters]
    does. *)
Theorem display_active_filters_calls (str : Qc → string) (S : Filters) :
  (display_active_filters str S = Some [] ↔ S = initialize_filters)
  ∧ (display_active_filters str S = None ↔ get_active_filters str S = None)
  ∧ ∀ a, get_active_filters str S = Some a → a ≠ [] →
         display_active_filters str S
         = Some (st_write "---" :: st_subheader "Filtres actifs"
                 :: (active_line <$> a))
         ∧ length (active_line <$> a) = length a.
Proof.
  unfold display_active_filters. split; [|split].
  - rewrite <-(get_active_filters_nil str).
    destruct (get_active_filters str S) as [[|item a]|]; simpl;
      [tauto|split; intros [=]..].
  - by destruct (get_active_filters str S).
  - intros a -> Ha. cbn. destruct a as [|item a]; [done|].
    split; [done|]. by rewrite length_fmap.
Qed.

Lemma display_active_filters_calls_witness :
  get_active_filters str_int only_severe
    = Some [("Sévérité"%string, ActiveList ["Severe"%string])]
  ∧ display_active_filters str_int only_severe
    = Some [st_write "---"; st_subheader "Filtres actifs";
            st_write "**Sévérité:** Severe"].
Proof.
  assert (get_active_filters str_int only_severe
          = Some [("Sévérité"%string, ActiveList ["Severe"%string])]) as Hget
    by (by_evaluation).
  split; [exact Hget|].
  destruct (display_active_filters_calls str_int only_severe) as (_ & _ & Hcalls).
  exact (proj1 (Hcalls _ Hget ltac:(discriminate))).
Defined.

(** ** The loader, when it succeeds *)

Lemma length_months_astype_str mode months :
  length (months_astype_str mode months) = length months.
Proof. unfold months_astype_str. destruct (forallb _ _); by rewrite length_fmap. Qed.

Lemma length_date_strings mode df : length (date_strings mode df) = length df.
Proof.
  unfold date_strings.
  rewrite length_zip_with, length_months_astype_str, !length_fmap. lia.
Qed.

(** The date strings are built from the Year and Month columns only. *)
Lemma date_strings_year_month mode df df' :
  (λ r, (csv_Year r, csv_Month r)) <$> df = (λ r, (csv_Year r, csv_Month r)) <$> df' →
  date_strings mode df = date_strings mode df'.
Proof.
  intros Heq. unfold date_strings.
  change (λ r : csv_row, pretty (csv_Year r))
    with ((pretty ∘ fst) ∘ (λ r, (csv_Year r, csv_Month r))).
  change (λ r : csv_row, month_map !! csv_Month r)
    with (((month_map !!.) ∘ snd) ∘ (λ r, (csv_Year r, csv_Month r))).
  by rewrite !(list_fmap_compose (λ r, (csv_Year r, csv_Month r))), Heq.
Qed.

Lemma has_columns_spec cols df :
  has_columns cols df = true ↔ ∀ col, col ∈ cols → col ∈ csv_columns df.
Proof.
  unfold has_columns. rewrite forallb_forall. split.
  - intros H col Hcol. apply list_elem_of_In, H in Hcol.
    by apply bool_decide_eq_true in Hcol.
  - intros H col Hcol. apply bool_decide_eq_true, H. by apply list_elem_of_In.
Qed.

Section LoaderSuccess.

Variable parse_datetime : string → option date.

(** X10: once the file is read, the load succeeds exactly when the frame
    has the eight numeric columns and the columns Year and Month, and every
    date string that is not missing parses; the table it then returns has
    one row per source row, in source order, each made of the coerced cells
    of its source row and of the date parsed from its date string, [NaT]
    for a missing date string: no row is dropped, added or moved. *)
Theorem load_data_success (mode : astype_str_missing) (df : csv_frame) :
  (is_Some (load_data parse_datetime mode (Some df))
   ↔ (∀ col, col ∈ load_columns → col ∈ csv_columns df)
     ∧ Forall (λ s, ∀ s', s = Some s' → is_Some (parse_datetime s'))
              (date_strings mode (csv_rows df)))
  ∧ ∀ loaded, load_data parse_datetime mode (Some df) = Some loaded →
      length loaded = length (csv_rows df)
      ∧ ∀ i r, csv_rows df !! i = Some r →
               ∃ s t, date_strings mode (csv_rows df) !! i = Some s
                      ∧ dated parse_datetime s t
                      ∧ loaded !! i = Some (coerce_row r, t)
                      ∧ ∀ D, typed_rows loaded = Some D →
                             ∃ d, t = Timestamp d
                                  ∧ D !! i = Some (convert_row r d).
Proof.
  unfold load_data, to_datetime.
  rewrite <-has_columns_spec, has_columns_load_columns, andb_true_iff.
  split.
  - destruct (has_columns numeric_columns df);
      [|split; [by intros [? [=]]|by intros [[[=] _] _]]].
    destruct (has_columns _ df);
      [|split; [by intros [? [=]]|by intros [[_ [=]] _]]].
    cbn [negb].
    set (f := λ s : option string,
                match s with
                | Some s => Timestamp <$> parse_datetime s
                | None => Some NaT
                end).
    assert (Forall (λ s, ∀ s', s = Some s' → is_Some (parse_datetime s'))
                   (date_strings mode (csv_rows df))
            ↔ Forall (is_Some ∘ f) (date_strings mode (csv_rows df))) as ->.
    { apply Forall_iff. intros [s|]; cbn.
      - split.
        + intros H. destruct (H s eq_refl) as [d ->]. by eexists.
        + intros H s' [= <-]. destruct (parse_datetime s); [by eexists|].
          by destruct H as [? [=]].
      - split; [by eexists|done]. }
    rewrite <-(mapM_is_Some f).
    destruct (mapM f (date_strings mode (csv_rows df)));
      split; eauto; try (by intros [_ [? [=]]]); by intros [? [=]].
  - intros loaded Hload.
    destruct (has_columns numeric_columns df); [|done].
    destruct (has_columns _ df); [|done]. cbn [negb] in Hload.
    destruct (mapM _ (date_strings mode (csv_rows df))) as [dates|] eqn:E; [|done].
    injection Hload as <-. apply mapM_Some_1 in E.
    pose proof (Forall2_length _ _ _ E) as Hlen.
    rewrite length_date_strings in Hlen. split.
    + rewrite length_zip_with. lia.
    + intros i r Hi.
      destruct (date_strings mode (csv_rows df) !! i) as [s|] eqn:Hs.
      2:{ apply lookup_ge_None in Hs. rewrite length_date_strings in Hs.
          apply lookup_lt_Some in Hi. lia. }
      destruct (Forall2_lookup_l _ _ _ _ _ E Hs) as (t & Ht & Hparse).
      assert (zip_with (λ r t, (coerce_row r, t)) (csv_rows df) dates !! i
              = Some (coerce_row r, t)) as Hloaded
        by (by rewrite lookup_zip_with, Hi, Ht).
      exists s, t. split; [done|]. split; [|split; [done|]].
      * destruct s as [s|]; cbn in Hparse |- *.
        -- destruct (parse_datetime s) as [d|]; [|done].
           exists d. split; [done|]. by injection Hparse as <-.
        -- by injection Hparse as <-.
      * intros D HD. apply mapM_Some_1 in HD.
        destruct (Forall2_lookup_l _ _ _ _ _ HD Hloaded) as (x & Hx & Hconv).
        cbn in Hconv. destruct t as [d|]; [|done].
        exists d. split; [done|]. by injection Hconv as <-.
Qed.

(** X11: a cell of a numeric column never decides the outcome: two frames
    with the same header and the same Year and Month columns load or fail
    together. *)
Theorem load_data_ignores_numeric_cells (mode : astype_str_missing)
    (df df' : csv_frame) :
  csv_columns df = csv_columns df' →
  (λ r, (csv_Year r, csv_Month r)) <$> csv_rows df
  = (λ r, (csv_Year r, csv_Month r)) <$> csv_rows df' →
  (is_Some (load_data parse_datetime mode (Some df))
   ↔ is_Some (load_data parse_datetime mode (Some df'))).
Proof.
  intros Hcols Heq. unfold load_data, has_columns.
  rewrite Hcols, (date_strings_year_month mode _ _ Heq).
  destruct (forallb _ numeric_columns); [|done].
  destruct (forallb _ _); [|done]. cbn [negb].
  destruct (to_datetime parse_datetime (date_strings mode (csv_rows df')));
    split; eauto.
  all: by intros [? [=]].
Qed.

End LoaderSuccess.

Lemma load_data_success_witness :
  load_data parse_ymd MissingKept
    (Some (full_frame [example_csv_row 2024 "January";
                       example_csv_row 2023 "December"]))
  = Some [(coerce_row (example_csv_row 2024 "January"),
           Timestamp {| year := 2024; month := 1 |});
          (coerce_row (example_csv_row 2023 "December"),
           Timestamp {| year := 2023; month := 12 |})]
  ∧ length [(coerce_row (example_csv_row 2024 "January"),
             Timestamp {| year := 2024; month := 1 |});
            (coerce_row (example_csv_row 2023 "December"),
             Timestamp {| year := 2023; month := 12 |})]
    = length (csv_rows (full_frame [example_csv_row 2024 "January";
                                    example_csv_row 2023 "December"])).
Proof.
  assert (load_data parse_ymd MissingKept
            (Some (full_frame [example_csv_row 2024 "January";
                               example_csv_row 2023 "December"]))
          = Some [(coerce_row (example_csv_row 2024 "January"),
                   Timestamp {| year := 2024; month := 1 |});
                  (coerce_row (example_csv_row 2023 "December"),
                   Timestamp {| year := 2023; month := 12 |})]) as Hload
    by (by_evaluation).
  split; [exact Hload|].
  exact (proj1 (proj2 (load_data_success parse_ymd MissingKept _) _ Hload)).
Defined.

(** Two sources that differ in the cells of the numeric columns only. *)
Lemma load_data_ignores_numeric_cells_witness :
  csv_columns (full_frame [example_csv_row 2024 "January"])
  = csv_columns (full_frame [with_text_cells (example_csv_row 2024 "January")])
  ∧ (λ r, (csv_Year r, csv_Month r))
      <$> csv_rows (full_frame [example_csv_row 2024 "January"])
    = (λ r, (csv_Year r, csv_Month r))
        <$> csv_rows (full_frame [with_text_cells (example_csv_row 2024 "January")])
  ∧ (is_Some (load_data parse_ymd MissingAsText
                (Some (full_frame [example_csv_row 2024 "January"])))
     ↔ is_Some (load_data parse_ymd MissingAsText
                  (Some (full_frame
                           [with_text_cells (example_csv_row 2024 "January")])))).
Proof.
  split; [reflexivity|]. split; [reflexivity|].
  exact (load_data_ignores_numeric_cells parse_ymd MissingAsText
           (full_frame [example_csv_row 2024 "January"])
           (full_frame [with_text_cells (example_csv_row 2024 "January")])
           eq_refl eq_refl).
Defined.

(** A frame without the column Traffic Volume does not load, although its
    dates parse. *)
Example load_data_missing_column (mode : astype_str_missing) :
  load_data parse_ymd mode
    (Some {| csv_columns := filter (λ c, c ≠ "Traffic Volume"%string) full_header;
             csv_rows := [example_csv_row 2024 "January"] |})
  = None.
Proof. destruct mode; by_evaluation. Qed.

(** ** Rates *)

(** X12: each of the three rate columns has one entry per row of the table
    (none for [None] and for the empty table). *)
Theorem calculate_rates_lengths (df : option DataFrame) :
  length (fatality_rate (calculate_rates df)) = length (default [] df)
  ∧ length (injury_rate (calculate_rates df)) = length (default [] df)
  ∧ length (severity_index (calculate_rates df)) = length (default [] df).
Proof.
  destruct df as [[|r D]|]; [done| |done].
  unfold calculate_rates, fatality_rate, injury_rate, severity_index,
    series_div, series_div_scalar, series_add, series_mul_scalar.
  change (default [] (Some (r :: D))) with (r :: D).
  rewrite !length_fmap, !length_zip_with, !length_fmap. lia.
Qed.

(** ** The mean response time *)

Lemma plain_sum_finite (a : list cell) :
  Forall (λ c, ∃ q, c = Fin q) a → plain_sum a = Fin (fin_total a).
Proof.
  induction 1 as [|c a [q ->] _ IH]; [done|].
  unfold plain_sum in *. cbn. by rewrite IH.
Qed.

Lemma fin_total_present (a : list cell) :
  fin_total (filter (λ c, notna c = true) a) = fin_total a.
Proof.
  unfold fin_total. induction a as [|c a IH]; [done|].
  rewrite filter_cons. destruct c as [q| | |].
  - rewrite decide_True by done. cbn. by rewrite IH.
  - rewrite decide_True by done. exact IH.
  - rewrite decide_True by done. exact IH.
  - rewrite decide_False by done. exact IH.
Qed.

(** Without infinities, [sum()] is the sum of the numbers of the column. *)
Lemma series_sum_finite (a : list cell) :
  Forall finite_or_missing a → series_sum a = Fin (fin_total a).
Proof.
  intros Ha. unfold series_sum.
  change (foldr cell_add (Fin 0)) with plain_sum.
  rewrite plain_sum_finite, fin_total_present; [done|].
  apply Forall_forall. intros c [Hc Hin]%list_elem_of_filter.
  rewrite Forall_forall in Ha. destruct (Ha c Hin) as [->|?]; [done|done].
Qed.

Lemma series_count_zero (a : list cell) :
  series_count a = 0%nat ↔ Forall (λ c, c = NaN) a.
Proof.
  unfold series_count. rewrite length_zero_iff_nil. split.
  - intros Hnil. apply Forall_forall. intros c Hc.
    destruct (decide (c = NaN)) as [|Hne]; [done|].
    exfalso. apply (filter_nil_not_elem_of _ _ c Hnil); [|done].
    by apply notna_true.
  - induction 1 as [|c a -> _ IH]; [done|]. by rewrite filter_cons.
Qed.

Lemma fin_total_all_missing (a : list cell) :
  Forall (λ c, c = NaN) a → fin_total a = 0.
Proof. induction 1 as [|c a -> _ IH]; [done|]. done. Qed.

(** X14: in a non-empty table whose response times are numbers or missing,
    the mean response time of the summary is NaN exactly when every
    response time is missing; otherwise it is the number obtained by
    dividing the sum of the recorded times by how many there are. *)
Theorem avg_response_time_defined (D : DataFrame) :
  D ≠ [] →
  Forall (λ r, finite_or_missing (Emergency_Response_Time r)) D →
  (calculate_summary_stats (Some D) !! "avg_response_time" = Some NaN
   ↔ Forall (λ r, Emergency_Response_Time r = NaN) D)
  ∧ (¬ Forall (λ r, Emergency_Response_Time r = NaN) D →
     calculate_summary_stats (Some D) !! "avg_response_time"
     = Some (Fin (fin_total (Emergency_Response_Time <$> D)
                  / Qc_of_nat (series_count (Emergency_Response_Time <$> D))))).
Proof.
  intros HD Hfin. destruct D as [|r0 D]; [done|].
  assert (calculate_summary_stats (Some (r0 :: D)) !! "avg_response_time"
          = Some (series_mean (Emergency_Response_Time <$> r0 :: D))) as ->.
  { unfold calculate_summary_stats. by simplify_map_eq. }
  set (col := Emergency_Response_Time <$> r0 :: D).
  assert (Forall finite_or_missing col) as Hcol by (by apply Forall_fmap).
  assert (Forall (λ r, Emergency_Response_Time r = NaN) (r0 :: D)
          ↔ series_count col = 0%nat) as Hall.
  { rewrite series_count_zero. unfold col. by rewrite Forall_fmap. }
  unfold series_mean. rewrite (series_sum_finite col Hcol), Hall.
  unfold cell_div. case_bool_decide as Hz.
  - assert (series_count col = 0%nat) as H0.
    { apply Qc_of_nat_inj. rewrite Hz. exact (eq_sym Z2Qc_inj_0). }
    rewrite (fin_total_all_missing col) by (by apply series_count_zero).
    replace (signed_inf (0 ?= 0)) with NaN by reflexivity.
    split; [by split|]. intros Hne. by destruct Hne.
  - assert (series_count col ≠ 0%nat) as H0.
    { intros H0. apply Hz. rewrite H0. exact Z2Qc_inj_0. }
    split; [|done]. split; [discriminate|]. intros ?. by destruct H0.
Qed.

Lemma avg_response_time_defined_witness :
  [severe_row; no_response_time_row] ≠ []
  ∧ Forall (λ r, finite_or_missing (Emergency_Response_Time r))
      [severe_row; no_response_time_row]
  ∧ ¬ Forall (λ r, Emergency_Response_Time r = NaN)
        [severe_row; no_response_time_row]
  ∧ calculate_summary_stats (Some [severe_row; no_response_time_row])
      !! "avg_response_time"
    = Some (Fin (fin_total (Emergency_Response_Time
                              <$> [severe_row; no_response_time_row])
                 / Qc_of_nat (series_count
                                (Emergency_Response_Time
                                   <$> [severe_row; no_response_time_row])))).
Proof.
  assert ([severe_row; no_response_time_row] ≠ []) as Hne by discriminate.
  assert (Forall (λ r, finite_or_missing (Emergency_Response_Time r))
            [severe_row; no_response_time_row]) as Hfin.
  { constructor; [right; by eexists|]. constructor; [by left|]. constructor. }
  assert (¬ Forall (λ r, Emergency_Response_Time r = NaN)
            [severe_row; no_response_time_row]) as Hsome.
  { intros H. apply Forall_cons_1 in H as [H _]. discriminate H. }
  split; [exact Hne|]. split; [exact Hfin|]. split; [exact Hsome|].
  exact (proj2 (avg_response_time_defined _ Hne Hfin) Hsome).
Defined.

(** ** Grouping by date *)

Lemma date_lt_spec a b :
  date_lt a b = true
  ↔ (year a < year b ∨ (year a = year b ∧ month a < month b))%Z.
Proof.
  unfold date_lt.
  rewrite orb_true_iff, andb_true_iff, !bool_decide_eq_true. tauto.
Qed.

Lemma date_before_irrefl a : ¬ date_before a a.
Proof. unfold date_before. rewrite date_lt_spec. lia. Qed.

Lemma date_before_trans a b c : date_before a b → date_before b c → date_before a c.
Proof. unfold date_before. rewrite !date_lt_spec. lia. Qed.

Lemma date_before_total a b : a ≠ b → date_lt a b = false → date_before b a.
Proof.
  intros Hne Hlt. unfold date_before.
  apply not_true_iff_false in Hlt. rewrite date_lt_spec in Hlt |- *.
  destruct a as [ya ma], b as [yb mb]. cbn in *.
  destruct (decide (ya = yb)) as [->|]; [|lia].
  destruct (decide (ma = mb)) as [->|]; [done|lia].
Qed.

Lemma elem_of_insert_key x d keys : x ∈ insert_key d keys ↔ x = d ∨ x ∈ keys.
Proof.
  induction keys as [|k keys IH]; cbn.
  - rewrite list_elem_of_singleton, elem_of_nil. tauto.
  - case_bool_decide as Hdk; [subst; rewrite elem_of_cons; tauto|].
    destruct (date_lt d k); rewrite !elem_of_cons, ?IH; tauto.
Qed.

Lemma insert_key_sorted d keys :
  StronglySorted date_before keys → StronglySorted date_before (insert_key d keys).
Proof.
  induction 1 as [|k keys Hsorted IH Hk]; cbn.
  - repeat constructor.
  - case_bool_decide as Hdk; [by constructor|].
    destruct (date_lt d k) eqn:Hlt.
    + constructor; [by constructor|]. constructor; [done|].
      eapply Forall_impl; [exact Hk|]. intros x. by apply date_before_trans.
    + constructor; [done|]. apply Forall_forall. intros x.
      rewrite elem_of_insert_key. intros [->|Hx].
      * by apply date_before_total.
      * rewrite Forall_forall in Hk. by apply Hk.
Qed.

Lemma group_keys_sorted dates : StronglySorted date_before (group_keys dates).
Proof.
  induction dates as [|d dates IH]; [constructor|]. by apply insert_key_sorted.
Qed.

Lemma elem_of_group_keys x dates : x ∈ group_keys dates ↔ x ∈ dates.
Proof.
  induction dates as [|d dates IH]; [done|].
  cbn. rewrite elem_of_insert_key, elem_of_cons, IH. tauto.
Qed.

Lemma sorted_NoDup keys : StronglySorted date_before keys → NoDup keys.
Proof.
  induction 1 as [|k keys _ IH Hk]; constructor; [|done].
  intros Hin. rewrite Forall_forall in Hk.
  by apply (date_before_irrefl k), Hk.
Qed.

Lemma groupby_Date_sum_dates D :
  t_Date <$> groupby_Date_sum D = group_keys (Date <$> D).
Proof.
  unfold groupby_Date_sum. rewrite <-list_fmap_compose.
  induction (group_keys (Date <$> D)) as [|d keys IH]; [done|].
  cbn. by f_equal.
Qed.

(** X15: the frame returned by [prepare_temporal_data] has one row per date
    of the table: its dates are exactly the dates that occur in the table,
    each once, in strictly increasing order; so it has at most as many rows
    as the table, and none for [None] or an empty table. *)
Theorem prepare_temporal_data_dates (df : option DataFrame) :
  StronglySorted date_before (t_Date <$> prepare_temporal_data df)
  ∧ NoDup (t_Date <$> prepare_temporal_data df)
  ∧ (∀ d, d ∈ t_Date <$> prepare_temporal_data df ↔ d ∈ Date <$> default [] df)
  ∧ (length (prepare_temporal_data df) ≤ length (default [] df))%nat.
Proof.
  assert (t_Date <$> prepare_temporal_data df = group_keys (Date <$> default [] df))
    as Hkeys.
  { destruct df as [[|r D]|]; [done| |done]. apply groupby_Date_sum_dates. }
  assert (NoDup (group_keys (Date <$> default [] df))) as Hnodup
    by apply sorted_NoDup, group_keys_sorted.
  rewrite Hkeys. split; [apply group_keys_sorted|]. split; [done|].
  split; [intros d; apply elem_of_group_keys|].
  rewrite <-(length_fmap t_Date), Hkeys, <-(length_fmap Date (default [] df)).
  apply submseteq_length, NoDup_submseteq; [done|].
  intros d. by rewrite elem_of_group_keys.
Qed.










(** The grouped frame of a table of two months: the earlier month comes
    first, and the missing fatality count of December is left out. *)
Example prepare_temporal_data_two_periods :
  prepare_temporal_data (Some two_period_table)
  = [ {| t_Date := december_2023;
         t_Number_of_Fatalities := Fin 0;
         t_Number_of_Injuries := Fin (Qc_of_Z 2);
         t_Economic_Loss := Fin (Qc_of_Z 2500) |};
      {| t_Date := january_2024;
         t_Number_of_Fatalities := Fin (Qc_of_Z 1);
         t_Number_of_Injuries := Fin (Qc_of_Z 3);
         t_Economic_Loss := Fin (Qc_of_Z 10000) |} ].
Proof. by_evaluation. Qed.




(** ** The periods of the temporal and financial pages *)

Lemma max_date_cons r df :
  max_date (r :: df)
  = match max_date df with
    | Some d => if date_le d (Date r) then Some (Date r) else Some d
    | None => Some (Date r)
    end.
Proof. done. Qed.

Lemma max_date_nil df : max_date df = None ↔ df = [].
Proof.
  destruct df as [|r df]; [by split|]. rewrite max_date_cons.
  destruct (max_date df) as [d|]; [destruct (date_le d (Date r))|];
    split; intros H; discriminate H.
Qed.

(** The latest date is the date of a row and bounds every date from above. *)
Lemma max_date_spec df d :
  max_date df = Some d →
  (∃ r, r ∈ df ∧ Date r = d)
  ∧ ∀ r, r ∈ df → (month_index (Date r) ≤ month_index d)%Z.
Proof.
  revert d. induction df as [|r df IH]; [done|]. intros d.
  rewrite max_date_cons.
  destruct (max_date df) as [d'|] eqn:Hmax.
  - destruct (IH d' eq_refl) as [(r' & Hr' & Hd') Hupper].
    unfold date_le. case_bool_decide as Hle; intros [= <-].
    + split; [exists r; split; [left|done]|].
      intros x [->|Hx]%elem_of_cons; [lia|]. specialize (Hupper x Hx). lia.
    + split; [exists r'; split; [by right|done]|].
      intros x [->|Hx]%elem_of_cons; [lia|]. by apply Hupper.
  - apply max_date_nil in Hmax as ->. intros [= <-].
    split; [exists r; split; [left|done]|].
    intros x [->|Hx]%elem_of_cons; [lia|]. by apply elem_of_nil in Hx.
Qed.


(** The current year holds the row of the latest date. *)
Lemma temporal_current_nonempty (filtered_df : DataFrame) :
  (Temporal.current_data filtered_df = [] → filtered_df = [])
  ∧ (filtered_df = [] → Temporal.current_data filtered_df = []).
Proof.
  unfold Temporal.current_data.
  destruct (max_date filtered_df) as [d|] eqn:Hmax.
  - rewrite getitem_mask_fmap.
    destruct (max_date_spec _ _ Hmax) as [(r & Hr & Hd) _]. split.
    + intros Hnil. exfalso.
      apply (filter_nil_not_elem_of _ _ r Hnil); [|done].
      rewrite bool_decide_eq_true. by rewrite Hd.
    + intros ->. by apply elem_of_nil in Hr.
  - by apply max_date_nil in Hmax as ->.
Qed.


Lemma Qc_of_Z_pos z : (0 < z)%Z → 0 < Qc_of_Z z.
Proof. intros Hz. rewrite <-Z2Qc_inj_0. by apply (proj1 (Z2Qc_inj_lt 0 z)). Qed.

(** A relative change from a positive count to a positive count. *)
Lemma count_change_above_minus_100 (c p : Z) :
  (0 < c)%Z → (0 < p)%Z →
  Qc_of_Z (-100) < Qc_of_Z (c - p) / Qc_of_Z p * Qc_of_Z 100.
Proof.
  intros Hc Hp.
  pose proof (Qc_of_Z_pos c Hc) as Hc'. pose proof (Qc_of_Z_pos p Hp) as Hp'.
  assert (Qc_of_Z p ≠ 0) as Hp0 by (by apply not_symmetry, Qclt_not_eq).
  apply Qclt_minus_iff.
  replace (Qc_of_Z (c - p) / Qc_of_Z p * Qc_of_Z 100 + - Qc_of_Z (-100))
    with (Qc_of_Z c * / Qc_of_Z p * Qc_of_Z 100).
  - apply Qcmult_pos_pos; [apply Qcmult_pos_pos; [done|by apply Qcinv_pos]|].
    by apply Qc_of_Z_pos.
  - rewrite Z2Qc_inj_sub.
    replace (Qc_of_Z (-100)) with (- Qc_of_Z 100) by (by rewrite <-Z2Qc_inj_opp).
    field. done.
Qed.

(** X18: the variation of the number of accidents never raises and is
    always a number above -100 (percent): the current year holds at least
    one accident whenever the previous year does. *)
Theorem variation_accidents_above_minus_100 (filtered_df : DataFrame) :
  ∃ q, Temporal.variation_accidents filtered_df = Some (Fin q)
       ∧ Qc_of_Z (-100) < q.
Proof.
  unfold Temporal.variation_accidents, py_truediv.
  case_bool_decide as Hprev.
  - rewrite bool_decide_eq_false_2 by lia. cbn.
    eexists. split; [done|].
    apply count_change_above_minus_100; [|lia].
    destruct (temporal_current_nonempty filtered_df) as [Hcur _].
    destruct (Temporal.current_data filtered_df) as [|r c] eqn:Hc; [|cbn; lia].
    rewrite (Hcur eq_refl) in Hprev. cbn in Hprev. lia.
  - exists 0. split; [done|]. by_evaluation.
Qed.

Lemma month_index_minus_one_month d :
  month_index (Financial.minus_one_month d) = (month_index d - 1)%Z.
Proof.
  unfold Financial.minus_one_month, month_index.
  case_bool_decide as Hm; cbn; lia.
Qed.

Lemma previous_df_filter df d :
  max_date df = Some d →
  Financial.previous_df df
  = filter (λ r, (month_index (Date r) < month_index d)%Z) df.
Proof.
  intros Hmax. unfold Financial.previous_df. rewrite Hmax, getitem_mask_fmap.
  apply list_filter_iff. intros r. unfold date_le.
  rewrite bool_decide_eq_true, month_index_minus_one_month. lia.
Qed.

(** X19: on the financial page the latest date is the date of a row and no
    row is dated later; the "previous period" is the filtered table
    restricted to the rows dated before the month of the latest date (each
    occurrence, in table order); it is empty for an empty table, and for a
    non-empty one it leaves out the rows of the latest month and so is
    strictly shorter. *)
Theorem financial_previous_df (filtered_df : DataFrame) :
  (max_date filtered_df = None →
   filtered_df = [] ∧ Financial.previous_df filtered_df = [])
  ∧ ∀ d, max_date filtered_df = Some d →
      Financial.previous_df filtered_df
      = filter (λ r, (month_index (Date r) < month_index d)%Z) filtered_df
      ∧ (∀ r, r ∈ filtered_df → (month_index (Date r) ≤ month_index d)%Z)
      ∧ (∃ r, r ∈ filtered_df ∧ Date r = d
              ∧ r ∉ Financial.previous_df filtered_df)
      ∧ (length (Financial.previous_df filtered_df) < length filtered_df)%nat.
Proof.
  split.
  - intros Hmax. unfold Financial.previous_df. rewrite Hmax.
    by apply max_date_nil in Hmax.
  - intros d Hmax. rewrite (previous_df_filter _ _ Hmax).
    destruct (max_date_spec _ _ Hmax) as [(r & Hr & Hd) Hupper].
    split; [done|]. split; [done|]. split.
    + exists r. split; [done|]. split; [done|].
      rewrite list_elem_of_filter, Hd. lia.
    + apply (length_filter_lt _ _ r); [done|]. rewrite Hd. lia.
Qed.

Lemma financial_previous_df_witness :
  max_date two_period_table = Some january_2024
  ∧ Financial.previous_df two_period_table
    = filter (λ r, (month_index (Date r) < month_index january_2024)%Z)
        two_period_table
  ∧ Financial.previous_df two_period_table = [december_row]
  ∧ (length (Financial.previous_df two_period_table) < length two_period_table)%nat.
Proof.
  assert (max_date two_period_table = Some january_2024) as Hmax by reflexivity.
  destruct (proj2 (financial_previous_df two_period_table) _ Hmax)
    as (Hfilter & _ & _ & Hshort).
  split; [exact Hmax|]. split; [exact Hfilter|]. split; [by_evaluation|].
  exact Hshort.
Defined.

Lemma pct_change_NaN_previous current : pct_change current NaN = NaN.
Proof. unfold pct_change, cell_sub. by destruct current. Qed.

Lemma filter_none {A : Type} (P : A → Prop) `{!∀ x, Decision (P x)} (l : list A) :
  (∀ x, x ∈ l → ¬ P x) → filter P l = [].
Proof.
  induction l as [|x l IH]; [done|]. intros HP.
  rewrite filter_cons_False by (apply HP; left).
  apply IH. intros y Hy. apply HP. by right.
Qed.

(** X20: when every row of the filtered table is dated in the same month
    (a single month of data, in particular), the previous period is empty
    and none of the four variations of the financial page is a number: the
    three totals give [inf], [-inf] or [nan], the mean cost gives [nan]. *)
Theorem financial_single_month (filtered_df : DataFrame) (m : Z) :
  (∀ r, r ∈ filtered_df → month_index (Date r) = m) →
  Financial.previous_df filtered_df = []
  ∧ is_undefined (Financial.variation_medical_cost filtered_df) = true
  ∧ is_undefined (Financial.variation_economic_loss filtered_df) = true
  ∧ is_undefined (Financial.variation_insurance_claims filtered_df) = true
  ∧ Financial.variation_avg_cost filtered_df = NaN.
Proof.
  intros Hm.
  assert (Financial.previous_df filtered_df = []) as Hprev.
  { destruct (max_date filtered_df) as [d|] eqn:Hmax.
    - rewrite (previous_df_filter _ _ Hmax).
      destruct (max_date_spec _ _ Hmax) as [(r0 & Hr0 & Hd) _].
      apply filter_none. intros r Hr.
      rewrite (Hm r Hr), <-Hd, (Hm r0 Hr0). lia.
    - unfold Financial.previous_df. by rewrite Hmax. }
  split; [done|].
  unfold Financial.variation_medical_cost, Financial.variation_economic_loss,
    Financial.variation_insurance_claims, Financial.variation_total,
    Financial.variation_avg_cost, Financial.prev_avg.
  rewrite Hprev. cbn [fmap list_fmap length].
  change (series_sum []) with (Fin 0).
  replace (cell_div (Fin 0) (Fin (Qc_of_nat 0))) with NaN by (by_evaluation).
  rewrite pct_change_NaN_previous.
  auto using pct_change_zero_previous.
Qed.

Lemma financial_single_month_witness :
  (∀ r, r ∈ single_period_table → month_index (Date r) = 24288%Z)
  ∧ Financial.previous_df single_period_table = []
  ∧ is_undefined (Financial.variation_medical_cost single_period_table) = true
  ∧ is_undefined (Financial.variation_economic_loss single_period_table) = true
  ∧ is_undefined (Financial.variation_insurance_claims single_period_table) = true
  ∧ Financial.variation_avg_cost single_period_table = NaN.
Proof.
  assert (∀ r, r ∈ single_period_table → month_index (Date r) = 24288%Z) as Hm.
  { intros r Hr. unfold single_period_table in Hr.
    apply elem_of_cons in Hr as [->|Hr]; [reflexivity|].
    apply list_elem_of_singleton in Hr as ->. reflexivity. }
  split; [exact Hm|].
  exact (financial_single_month single_period_table 24288 Hm).
Defined.

(** ** The overview page *)

Lemma Qc_of_nat_lt_0 n : (0 < n)%nat → 0 < Qc_of_nat n.
Proof. intros Hn. unfold Qc_of_nat. apply Qc_of_Z_pos. lia. Qed.

(** The share of [a] rows among [b] rows, in percent. *)
Lemma share_bounds (a b : nat) :
  (0 < a)%nat → (a ≤ b)%nat →
  0 < Qc_of_nat a / Qc_of_nat b * Qc_of_Z 100
  ∧ Qc_of_nat a / Qc_of_nat b * Qc_of_Z 100 ≤ Qc_of_Z 100.
Proof.
  intros Ha Hab.
  pose proof (Qc_of_nat_lt_0 a Ha) as Ha'.
  assert (0 < Qc_of_nat b) as Hb' by (apply Qc_of_nat_lt_0; lia).
  assert (0 < Qc_of_Z 100) as H100 by (by apply Qc_of_Z_pos).
  assert (Qc_of_nat a ≤ Qc_of_nat b) as Hle.
  { unfold Qc_of_nat. apply (proj1 (Z2Qc_inj_le _ _)). lia. }
  split.
  - apply Qcmult_pos_pos; [|done].
    apply Qcmult_pos_pos; [done|by apply Qcinv_pos].
  - rewrite <-(Qcmult_1_l (Qc_of_Z 100)) at 2.
    apply Qcmult_le_mono_nonneg_r; [by apply Qclt_le_weak|].
    rewrite <-(Qcmult_inv_r (Qc_of_nat b))
      by (by apply not_symmetry, Qclt_not_eq).
    apply Qcmult_le_mono_nonneg_r; [|done].
    by apply Qclt_le_weak, Qcinv_pos.
Qed.

(** X21: after a successful load, the overview page raises [KeyError] on
    [stats['total_accidents']] exactly when no row survives the filters;
    otherwise its metrics are computed, never dividing an integer by zero,
    and the share of accidents shown is a percentage in (0, 100]. *)
Theorem overview_main_outcome (df : DataFrame) (S : Filters) :
  (Overview.main df S = KeyError "total_accidents"
   ↔ filter_data (Some df) S = Some [])
  ∧ (filter_data (Some df) S ≠ Some [] →
     ∃ m q, Overview.main df S = Returned m
            ∧ Overview.share_of_accidents m = Fin q
            ∧ 0 < q ∧ q ≤ Qc_of_Z 100)
  ∧ Overview.main df S ≠ ZeroDivisionError.
Proof.
  unfold Overview.main. rewrite filter_data_spec.
  pose proof (length_filter (λ r, row_matches S r = true) df) as Hlen.
  destruct (filter (λ r, row_matches S r = true) df) as [|r R] eqn:HR.
  - split; [done|]. split; [by intros []|done].
  - assert (length df ≠ 0%nat) as Hdf by (cbn in Hlen; lia).
    unfold calculate_summary_stats, Overview.getitem.
    rewrite lookup_insert_eq. cbn [outcome_bind].
    unfold Overview.int_truediv. rewrite bool_decide_eq_false_2 by done.
    cbn [outcome_bind]. simplify_map_eq. cbn [outcome_bind].
    split; [split; intros [=]|]. split; [|done].
    intros _. eexists _, _. split; [done|]. cbn [Overview.share_of_accidents].
    unfold cell_div, cell_mul.
    rewrite bool_decide_eq_false_2 by (apply Qc_of_nat_pos; lia).
    split; [done|]. apply share_bounds; [cbn; lia|done].
Qed.

Lemma overview_main_outcome_witness :
  filter_data (Some [severe_row; minor_row]) only_severe ≠ Some []
  ∧ ∃ m q, Overview.main [severe_row; minor_row] only_severe = Returned m
           ∧ Overview.share_of_accidents m = Fin q
           ∧ 0 < q ∧ q ≤ Qc_of_Z 100.
Proof.
  assert (filter_data (Some [severe_row; minor_row]) only_severe ≠ Some []) as Hne
    by (by_evaluation).
  split; [exact Hne|].
  exact (proj1 (proj2 (overview_main_outcome [severe_row; minor_row] only_severe))
           Hne).
Defined.

(** ** The key indicators of the home page *)

Lemma max_year_cons r df :
  Home.max_year (r :: df)
  = match Home.max_year df with
    | Some m => Some (Z.max (Year r) m)
    | None => Some (Year r)
    end.
Proof. done. Qed.

Lemma min_year_cons r df :
  Home.min_year (r :: df)
  = match Home.min_year df with
    | Some m => Some (Z.min (Year r) m)
    | None => Some (Year r)
    end.
Proof. done. Qed.

Lemma max_year_spec df :
  df ≠ [] →
  ∃ hi, Home.max_year df = Some hi
        ∧ (∃ r, r ∈ df ∧ Year r = hi)
        ∧ ∀ r, r ∈ df → (Year r ≤ hi)%Z.
Proof.
  induction df as [|r df IH]; [done|]. intros _. rewrite max_year_cons.
  destruct df as [|r' df'].
  - exists (Year r). split; [done|]. split; [exists r; split; [left|done]|].
    intros x ->%list_elem_of_singleton. lia.
  - destruct IH as (hi & -> & (r0 & Hr0 & Hhi) & Hupper); [done|].
    exists (Z.max (Year r) hi). split; [done|]. split.
    + destruct (Z.max_spec (Year r) hi) as [[_ ->]|[_ ->]].
      * exists r0. split; [by right|done].
      * exists r. split; [left|done].
    + intros x [->|Hx]%elem_of_cons; [lia|]. specialize (Hupper x Hx). lia.
Qed.

Lemma min_year_spec df :
  df ≠ [] →
  ∃ lo, Home.min_year df = Some lo ∧ ∀ r, r ∈ df → (lo ≤ Year r)%Z.
Proof.
  induction df as [|r df IH]; [done|]. intros _. rewrite min_year_cons.
  destruct df as [|r' df'].
  - exists (Year r). split; [done|].
    intros x ->%list_elem_of_singleton. lia.
  - destruct IH as (lo & -> & Hlower); [done|].
    exists (Z.min (Year r) lo). split; [done|].
    intros x [->|Hx]%elem_of_cons; [lia|]. specialize (Hlower x Hx). lia.
Qed.

(** X22: for a non-empty table the home page counts at least one and at
    most all accidents in the latest year, and the period it announces
    spans at least one year and contains the year of every accident. *)
Theorem home_metrics (df : DataFrame) :
  df ≠ [] →
  (1 ≤ Home.latest_year_count df ≤ length df)%nat
  ∧ ∃ lo hi, Home.min_year df = Some lo ∧ Home.max_year df = Some hi
             ∧ Home.years_covered df = Some (hi - lo + 1)%Z
             ∧ (1 ≤ hi - lo + 1)%Z
             ∧ ∀ r, r ∈ df → (lo ≤ Year r ≤ hi)%Z.
Proof.
  intros Hdf.
  destruct (max_year_spec df Hdf) as (hi & Hmax & (r0 & Hr0 & Hhi) & Hupper).
  destruct (min_year_spec df Hdf) as (lo & Hmin & Hlower).
  split.
  - unfold Home.latest_year_count. rewrite getitem_mask_fmap, Hmax. split.
    + destruct (filter _ df) as [|x l] eqn:Hf; [|cbn; lia].
      exfalso. apply (filter_nil_not_elem_of _ _ r0 Hf); [|done].
      rewrite bool_decide_eq_true. by rewrite Hhi.
    + apply length_filter.
  - exists lo, hi. split; [done|]. split; [done|].
    split; [unfold Home.years_covered; by rewrite Hmax, Hmin|].
    split.
    + specialize (Hlower r0 Hr0). lia.
    + intros r Hr. specialize (Hupper r Hr). specialize (Hlower r Hr). lia.
Qed.

Lemma home_metrics_witness :
  two_period_table ≠ []
  ∧ (1 ≤ Home.latest_year_count two_period_table ≤ length two_period_table)%nat
  ∧ Home.years_covered two_period_table = Some 2%Z.
Proof.
  assert (two_period_table ≠ []) as Hne by discriminate.
  destruct (home_metrics two_period_table Hne) as [Hcount _].
  split; [exact Hne|]. split; [exact Hcount|]. reflexivity.
Defined.

(** ** Further examples *)

